(** * Image Analyzer: the normalisation and result-rendering pipeline of app.py

    A shallow embedding of the Streamlit script [app.py].  The script is a
    straight-line program over three kinds of data:

    - Python strings, with the [str] methods the script calls
      ([strip], [rstrip], [split], [join], [title], [+]);
    - the value returned by [response.json()], a dynamically typed tree of
      dicts, lists, strings and numbers, read with [.get], [[...]] and
      truthiness tests, every one of which can raise;
    - the page it draws and the request it sends, modelled as the trace of
      [st.*] calls and HTTP posts the script performs, in order.

    Strings are ASCII text: the character classes below are Python's on
    code points under 128, and the pictographs of the page headings are left
    out of the heading texts.  A statement that depends on what whitespace
    or a letter is asks for ASCII text ([isascii]). *)

From Stdlib Require Import ZArith Ascii String DecimalString Floats Lia.
From Stdlib Require DecimalN.
From stdpp Require Import base option list strings.

Set Default Proof Using "Type".
Set Warnings "-inexact-float,-register-all".

(** ** Python [str] methods *)

Module Str.

Definition code (c : ascii) : N := N_of_ascii c.

(** [str.isspace] on one ASCII character: TAB, LF, VT, FF, CR, the four
    separators FS, GS, RS, US, and the space. *)
Definition isspace (c : ascii) : bool :=
  let n := code c in
  ((9 <=? n) && (n <=? 13) || (28 <=? n) && (n <=? 32))%N.

Definition isupper (c : ascii) : bool :=
  let n := code c in ((65 <=? n) && (n <=? 90))%N.

Definition islower (c : ascii) : bool :=
  let n := code c in ((97 <=? n) && (n <=? 122))%N.

(** A cased character is one that has an upper or lower case form. *)
Definition iscased (c : ascii) : bool := isupper c || islower c.

Definition upper (c : ascii) : ascii :=
  if islower c then ascii_of_N (code c - 32) else c.

Definition lower (c : ascii) : ascii :=
  if isupper c then ascii_of_N (code c + 32) else c.

(** [s.title()]: a character that follows a cased character is lowered,
    any other character is put in title case; CPython keeps one flag,
    [previous_is_cased], across the scan. *)
Fixpoint title_from (previous_is_cased : bool) (s : string) : string :=
  match s with
  | EmptyString => EmptyString
  | String c s' =>
      String (if previous_is_cased then lower c else upper c)
             (title_from (iscased c) s')
  end.

Definition title (s : string) : string := title_from false s.

(** [sep.join(items)] *)
Fixpoint join (sep : string) (items : list string) : string :=
  match items with
  | [] => ""
  | [x] => x
  | x :: rest => x +:+ sep +:+ join sep rest
  end.

(** [s.lstrip()] and [s.rstrip()] with the set of stripped characters given
    as a predicate; [s.strip()] strips whitespace on both sides. *)
Fixpoint lstrip_by (p : ascii -> bool) (s : string) : string :=
  match s with
  | EmptyString => EmptyString
  | String c s' => if p c then lstrip_by p s' else s
  end.

Fixpoint rstrip_by (p : ascii -> bool) (s : string) : string :=
  match s with
  | EmptyString => EmptyString
  | String c s' =>
      match rstrip_by p s' with
      | EmptyString => if p c then EmptyString else String c EmptyString
      | r => String c r
      end
  end.

Definition strip (s : string) : string :=
  rstrip_by isspace (lstrip_by isspace s).

(** [s.rstrip(chars)] *)
Definition rstrip_chars (chars : string) (s : string) : string :=
  rstrip_by (fun c => existsb (Ascii.eqb c) (list_ascii_of_string chars)) s.

(** [s.split()] with no argument: the maximal runs of non-whitespace
    characters, in order; leading, trailing and repeated whitespace yield
    no empty word. *)
Fixpoint split (s : string) : list string :=
  match s with
  | EmptyString => []
  | String c s' =>
      if isspace c then split s'
      else
        match s' with
        | EmptyString => [String c EmptyString]
        | String c' _ =>
            if isspace c' then String c EmptyString :: split s'
            else
              match split s' with
              | w :: ws => String c w :: ws
              | [] => [String c EmptyString]
              end
        end
  end.

(** [s.endswith(suffix)] *)
Fixpoint endswith (s suffix : string) : bool :=
  if String.eqb s suffix then true
  else match s with
       | EmptyString => false
       | String _ s' => endswith s' suffix
       end.

(** A word, as [split] produces them: not empty, no whitespace inside. *)
Fixpoint nospace (s : string) : bool :=
  match s with
  | EmptyString => true
  | String c s' => negb (isspace c) && nospace s'
  end.

Definition is_word (s : string) : bool :=
  match s with
  | EmptyString => false
  | _ => nospace s
  end.

End Str.

(** ** Python values and exceptions *)

(** What [response.json()] returns: [None], [bool], [int], [float], [str],
    [list] and [dict] with string keys.  A dict is kept as its items in
    order; a lookup takes the first item with the key. *)
Inductive value :=
| VNone
| VBool (b : bool)
| VInt (n : Z)
| VFloat (x : float)
| VStr (s : string)
| VList (items : list value)
| VDict (items : list (string * value)).

(** The exceptions the script can meet.  [StopException] is what [st.stop()]
    raises to end the run; [LibraryError] stands for an exception raised
    inside Pillow or requests (UnidentifiedImageError, Timeout, ...). *)
Inductive exn :=
| KeyError
| IndexError
| TypeError
| AttributeError
| ValueError
| OverflowError
| StopException
| LibraryError (name : string).

(** The result of evaluating a Python expression.  [Unmodelled] marks the one
    place where the embedding stops: the text [str] gives a float, a list or
    a dict interpolated in an f-string, which no response of the documented
    shape reaches. *)
Inductive py (A : Type) :=
| Ok (a : A)
| Raise (e : exn)
| Unmodelled.
Arguments Ok {A} a.
Arguments Raise {A} e.
Arguments Unmodelled {A}.

#[global] Instance py_ret : MRet py := fun A a => Ok a.
#[global] Instance py_bind : MBind py := fun A B k m =>
  match m with
  | Ok a => k a
  | Raise e => Raise e
  | Unmodelled => Unmodelled
  end.
#[global] Instance py_fmap : FMap py := fun A B f m =>
  match m with
  | Ok a => Ok (f a)
  | Raise e => Raise e
  | Unmodelled => Unmodelled
  end.

(** [[f(x) for x in xs]]: the elements are evaluated left to right and the
    first exception ends the comprehension. *)
Fixpoint comprehension {A B} (f : A -> py B) (xs : list A) : py (list B) :=
  match xs with
  | [] => Ok []
  | x :: xs' => y ← f x; ys ← comprehension f xs'; Ok (y :: ys)
  end.

Module Py.

Fixpoint lookup_item (k : string) (items : list (string * value)) : option value :=
  match items with
  | [] => None
  | (k', v) :: rest => if String.eqb k k' then Some v else lookup_item k rest
  end.

(** [bool(v)], the test of [if v:]. *)
Definition truthy (v : value) : bool :=
  match v with
  | VNone => false
  | VBool b => b
  | VInt n => negb (n =? 0)%Z
  | VFloat x => negb (PrimFloat.eqb x 0)
  | VStr s => negb (String.eqb s "")
  | VList l => match l with [] => false | _ => true end
  | VDict d => match d with [] => false | _ => true end
  end.

(** [v.get(k, default)]: only a dict has the method. *)
Definition get (v : value) (k : string) (otherwise : value) : py value :=
  match v with
  | VDict d => Ok (default otherwise (lookup_item k d))
  | _ => Raise AttributeError
  end.

(** [v[k]] with a string key. *)
Definition getitem (v : value) (k : string) : py value :=
  match v with
  | VDict d =>
      match lookup_item k d with
      | Some x => Ok x
      | None => Raise KeyError
      end
  | _ => Raise TypeError
  end.

(** [v[0]].  The keys of a dict read from JSON are strings, so the integer
    key is never found. *)
Definition getitem0 (v : value) : py value :=
  match v with
  | VList l =>
      match l with
      | x :: _ => Ok x
      | [] => Raise IndexError
      end
  | VStr s =>
      match s with
      | String c _ => Ok (VStr (String c EmptyString))
      | EmptyString => Raise IndexError
      end
  | VDict _ => Raise KeyError
  | _ => Raise TypeError
  end.

(** [for x in v]: the elements of a list, the keys of a dict, the
    characters of a string. *)
Definition iter (v : value) : py (list value) :=
  match v with
  | VList l => Ok l
  | VDict d => Ok (map (fun kv => VStr (fst kv)) d)
  | VStr s => Ok (map (fun c => VStr (String c EmptyString)) (list_ascii_of_string s))
  | _ => Raise TypeError
  end.

(** [sep.join(v)] needs every item to be a [str]. *)
Definition as_str (v : value) : py string :=
  match v with
  | VStr s => Ok s
  | _ => Raise TypeError
  end.

Definition join (sep : string) (items : list value) : py string :=
  ss ← comprehension as_str items; Ok (Str.join sep ss).

(** [v.title()]: only a [str] has the method. *)
Definition title (v : value) : py string :=
  match v with
  | VStr s => Ok (Str.title s)
  | _ => Raise AttributeError
  end.

Definition decimal (n : Z) : string :=
  match n with
  | Zneg p => "-" +:+ NilZero.string_of_uint (Pos.to_uint p)
  | _ => NilZero.string_of_uint (N.to_uint (Z.to_N n))
  end.

(** [f"{v}"], that is [str(v)]. *)
Definition str (v : value) : py string :=
  match v with
  | VStr s => Ok s
  | VNone => Ok "None"
  | VBool true => Ok "True"
  | VBool false => Ok "False"
  | VInt n => Ok (decimal n)
  | VFloat _ | VList _ | VDict _ => Unmodelled
  end.

End Py.

(** ** Number formatting: [f"{v*100:.1f}"] and [f"{v*100:.0f}"] *)

Module Fmt.

(** The integer nearest to [n/d] ([d > 0]), ties going to the even one. *)
Definition round_half_even (n d : Z) : Z :=
  let q := (n / d)%Z in
  match (2 * (n mod d) ?= d)%Z with
  | Lt => q
  | Gt => (q + 1)%Z
  | Eq => if Z.even q then q else (q + 1)%Z
  end.

(** [m * 2^e * 10^digits], correctly rounded to an integer: what the 'f'
    presentation prints of the binary64 number [m * 2^e]. *)
Definition scaled (digits : nat) (m : positive) (e : Z) : Z :=
  let n := (Zpos m * 10 ^ Z.of_nat digits)%Z in
  if (0 <=? e)%Z then (n * 2 ^ e)%Z else round_half_even n (2 ^ (- e)).

Fixpoint zeros (n : nat) : string :=
  match n with
  | O => ""
  | S n' => String "0" (zeros n')
  end.

(** The digits of [n] with the decimal point [digits] places from the
    right, and at least one digit before it. *)
Definition point (digits : nat) (n : Z) : string :=
  let s := NilZero.string_of_uint (N.to_uint (Z.to_N n)) in
  let s := zeros (S digits - String.length s) +:+ s in
  let k := (String.length s - digits)%nat in
  match digits with
  | O => s
  | _ => substring 0 k s +:+ "." +:+ substring k digits s
  end.

Definition sign (negative : bool) : string := if negative then "-" else "".

(** [format(x, ".<digits>f")] for a float. *)
Definition fixed (digits : nat) (x : float) : string :=
  match Prim2SF x with
  | S754_nan => "nan"
  | S754_infinity s => sign s +:+ "inf"
  | S754_zero s => sign s +:+ point digits 0
  | S754_finite s m e => sign s +:+ point digits (scaled digits m e)
  end.

(** [float(n)] for an int, as the integer it is exactly equal to: [n]
    rounded to 53 significant bits, or OverflowError past the largest
    float. *)
Definition float_of_int (n : Z) : py Z :=
  let a := Z.abs n in
  let bits := (if (a =? 0)%Z then 0 else Z.log2 a + 1)%Z in
  if (bits <=? 53)%Z then Ok n
  else
    let k := (bits - 53)%Z in
    let r := (round_half_even a (2 ^ k) * 2 ^ k)%Z in
    if (2 ^ 1024 <=? r)%Z then Raise OverflowError
    else Ok (if (n <? 0)%Z then (- r)%Z else r).

Definition fixed_int (digits : nat) (n : Z) : py string :=
  r ← float_of_int n;
  Ok (sign (r <? 0)%Z +:+ point digits (Z.abs r * 10 ^ Z.of_nat digits)).

Fixpoint repeat_str (n : nat) (s : string) : string :=
  match n with
  | O => ""
  | S n' => s +:+ repeat_str n' s
  end.

(** [v * 100] *)
Definition times100 (v : value) : py value :=
  match v with
  | VInt n => Ok (VInt (n * 100))
  | VBool b => Ok (VInt (if b then 100 else 0))
  | VFloat x => Ok (VFloat (x * 100))
  | VStr s => Ok (VStr (repeat_str 100 s))
  | VList l => Ok (VList (concat (replicate 100 l)))
  | VNone | VDict _ => Raise TypeError
  end.

(** [format(v, ".<digits>f")] *)
Definition format_f (digits : nat) (v : value) : py string :=
  match v with
  | VFloat x => Ok (fixed digits x)
  | VInt n => fixed_int digits n
  | VBool b => fixed_int digits (if b then 1 else 0)
  | VStr _ => Raise ValueError
  | VNone | VList _ | VDict _ => Raise TypeError
  end.

(** The fragment [{v*100:.<digits>f}%] of the card templates. *)
Definition percent (digits : nat) (v : value) : py string :=
  p ← times100 v; s ← format_f digits p; Ok (s +:+ "%").

(** The same fragment for a confidence known to be a float. *)
Definition percent_of_float (digits : nat) (c : float) : string :=
  fixed digits (c * 100) +:+ "%".

End Fmt.

(** ** The page and the network, as a trace *)

(** Where a widget is drawn: on the page, or in one of the columns made by
    [st.columns]. *)
Inductive container :=
| Page
| Column (i : nat).

(** The HTML fragments handed to [st.markdown], one constructor per template
    of the script, carrying the interpolated texts.  The [confidence] of a
    card is what replaces [{...*100:.1f}%] after "Confidence: ", the percent
    sign included; a tag's span reads [name (pct)]. *)
Inductive html :=
| Style                                      (* the <style> sheet *)
| Header                                     (* <div class="header"> ... *)
| Footer                                     (* <hr><p> Powered by ... *)
| Heading (level : nat) (caption : string)   (* "## Upload Image" *)
| ImageBoxOpen                               (* <div class="image-box"> *)
| SectionOpen                                (* <div class="section"> *)
| DivClose                                   (* </div> *)
| LineBreak                                  (* <br> *)
| CaptionCard (h3 confidence : string)       (* <div class="card"> *)
| SummaryParagraph (paragraph : string)      (* <p style=...>{paragraph}</p> *)
| ObjectCard (strong confidence : string)    (* <div class="object-card"> *)
| TagChips (spans : list (string * string)). (* <span class="tag"> name (pct) *)

Definition bytes := list Byte.byte.

Record request := {
  url : string;
  headers : list (string * string);
  params : list (string * string);
  data : bytes;
  timeout : Z
}.

Inductive event :=
| set_page_config
| markdown (c : container) (h : html)
| file_uploader
| image_drawn
| button
| spinner (label : string)
| warning (msg : string)
| error (msg : string)
| columns (n : nat)
| expander (label : string)
| json_shown (v : value)
| post (r : request).

(** A run of script code: the calls made so far, and how evaluation ended. *)
Definition ui (A : Type) : Type := (list event * py A)%type.

#[global] Instance ui_ret : MRet ui := fun A a => ([], Ok a).
#[global] Instance ui_bind : MBind ui := fun A B k m =>
  match m with
  | (t, Ok a) => let '(t', r) := k a in (t ++ t', r)
  | (t, Raise e) => (t, Raise e)
  | (t, Unmodelled) => (t, Unmodelled)
  end.

Definition emit (e : event) : ui unit := ([e], Ok tt).
Definition eval {A} (m : py A) : ui A := ([], m).
Definition stop : ui unit := ([], Raise StopException).
Definition trace {A} (m : ui A) : list event := fst m.
Definition outcome {A} (m : ui A) : py A := snd m.

(** [for i, x in enumerate(xs): body] *)
Fixpoint for_enumerate {A} (body : nat -> A -> ui unit) (i : nat) (xs : list A) : ui unit :=
  match xs with
  | [] => mret tt
  | x :: xs' => body i x;; for_enumerate body (S i) xs'
  end.

(** [for x in xs: acc = step(acc, x)] *)
Fixpoint for_accumulate {A S} (step : S -> A -> py S) (acc : S) (xs : list A) : py S :=
  match xs with
  | [] => Ok acc
  | x :: xs' => acc' ← step acc x; for_accumulate step acc' xs'
  end.

(** ** The result summarizer (app.py, lines 149 to 230) *)

(** Lines 164 to 183: the sentence built from the caption, the first five
    object labels and the first five tag names. *)
Definition build_paragraph (result cap : value) : py string :=
  os ← Py.get result "objects" (VList []);
  os ← Py.iter os;
  os ← comprehension (fun o => Py.getitem o "object") os;
  let objects := take 5 os in
  ts ← Py.get result "tags" (VList []);
  ts ← Py.iter ts;
  ts ← comprehension (fun t => Py.getitem t "name") ts;
  let tags := take 5 ts in
  let details_parts := [] in
  details_parts ←
    (if Py.truthy (VList objects)
     then j ← Py.join ", " objects; Ok (details_parts ++ ["It seems to show " +:+ j])
     else Ok details_parts);
  details_parts ←
    (if Py.truthy (VList tags)
     then j ← Py.join ", " tags; Ok (details_parts ++ ["The scene relates to " +:+ j])
     else Ok details_parts);
  text ← Py.getitem cap "text";
  text ← Py.str text;
  let base_sentence := "The AI thinks this image is about " +:+ text +:+ "." in
  let extra_sentence :=
    match details_parts with
    | [] => ""
    | _ => " " +:+ Str.join ". " details_parts +:+ "."
    end in
  Ok (Str.strip (base_sentence +:+ extra_sentence)).

(** Lines 184 to 187: the cap of 100 words. *)
Definition hard_cap (paragraph : string) : string :=
  let words := Str.split paragraph in
  if (100 <? length words)%nat
  then Str.join " " (take 100 words) +:+ "..."
  else paragraph.

(** Line 153: [result["description"]["captions"][0]] *)
Definition first_caption (result : value) : py value :=
  d ← Py.getitem result "description";
  c ← Py.getitem d "captions";
  Py.getitem0 c.

(** Lines 149 to 196: the description section. *)
Definition image_description (result : value) : ui unit :=
  emit (markdown Page SectionOpen);;
  emit (markdown Page (Heading 2 "Image Description"));;
  description ← eval (Py.get result "description" (VDict []));
  captions ← eval (Py.get description "captions" VNone);
  (if Py.truthy captions then
     cap ← eval (first_caption result);
     card ← eval (text ← Py.getitem cap "text";
                  text ← Py.str text;
                  confidence ← Py.getitem cap "confidence";
                  pct ← Fmt.percent 1 confidence;
                  Ok (CaptionCard text pct));
     emit (markdown Page card);;
     paragraph ← eval (build_paragraph result cap);
     let paragraph := hard_cap paragraph in
     emit (markdown Page (Heading 4 "Summary (within 100 words)"));;
     emit (markdown Page (SummaryParagraph paragraph))
   else
     emit (warning "No description detected"));;
  emit (markdown Page DivClose).

(** Lines 204 to 210: one turn of the loop over the objects, drawing the
    card of object number [i] in column [i % 2]. *)
Definition draw_object_card (i : nat) (obj : value) : ui unit :=
  card ← eval (label ← Py.getitem obj "object";
               label ← Py.title label;
               confidence ← Py.getitem obj "confidence";
               pct ← Fmt.percent 1 confidence;
               Ok (ObjectCard label pct));
  emit (markdown (Column (i mod 2)) card).

(** Lines 198 to 213: the object cards, dealt to two columns in turn. *)
Definition detected_objects (result : value) : ui unit :=
  emit (markdown Page SectionOpen);;
  emit (markdown Page (Heading 2 "Detected Objects"));;
  objects ← eval (Py.get result "objects" VNone);
  (if Py.truthy objects then
     emit (columns 2);;
     objects ← eval (os ← Py.getitem result "objects"; Py.iter os);
     for_enumerate draw_object_card 0 objects
   else
     emit (warning "No objects detected"));;
  emit (markdown Page DivClose).

(** Lines 222 to 227: one turn of the loop over the tags, adding a chip to
    the fragment. *)
Definition add_tag_chip (tags_html : list (string * string)) (tag : value)
    : py (list (string * string)) :=
  name ← Py.getitem tag "name";
  name ← Py.str name;
  confidence ← Py.getitem tag "confidence";
  pct ← Fmt.percent 0 confidence;
  Ok (tags_html ++ [(name, pct)]).

(** Lines 216 to 230: the tag chips, gathered into one fragment. *)
Definition image_tags (result : value) : ui unit :=
  emit (markdown Page SectionOpen);;
  emit (markdown Page (Heading 2 "Image Tags"));;
  tags ← eval (Py.get result "tags" VNone);
  (if Py.truthy tags then
     tags_html ← eval (ts ← Py.getitem result "tags";
                       ts ← Py.iter ts;
                       for_accumulate add_tag_chip [] ts);
     emit (markdown Page (TagChips tags_html))
   else
     emit (warning "No tags detected"));;
  emit (markdown Page DivClose).

Definition summarize (result : value) : ui unit :=
  image_description result;;
  detected_objects result;;
  image_tags result.

(** ** The script (app.py, lines 22 to 241) *)

Record response := {
  status_code : Z;
  text : string;   (* response.text *)
  json : py value  (* response.json() *)
}.

(** What one run of the script is given. *)
Record inputs := {
  AZURE_VISION_ENDPOINT : option string;
  AZURE_VISION_API_KEY : option string;
  uploaded_file : option bytes;  (* the file_uploader's value *)
  analyze_clicked : bool         (* the button's value *)
}.

(** [not v] for the value of [os.getenv]. *)
Definition unset (v : option string) : bool :=
  match v with
  | None => true
  | Some s => String.eqb s ""
  end.

Section Script.

(** Pillow and requests, as the script uses them. *)
Variable image : Type.
Variable Image_open : bytes -> py image.       (* Image.open(file) *)
Variable convert_RGB : image -> py image.      (* .convert("RGB") *)
Variable save_JPEG : image -> py bytes.        (* .save(buf, format="JPEG") *)
Variable st_image : image -> py unit.          (* st.image(image, width=520) *)
Variable requests_post : request -> py response.

(** Line 122: [Image.open(uploaded_file).convert("RGB")].  The file is
    rewound first (line 121), so Pillow reads the whole upload. *)
Definition decode (raw_bytes : bytes) : py image :=
  pil_img ← Image_open raw_bytes;
  convert_RGB pil_img.

(** Lines 119 to 125: decode to three channels, encode as JPEG; there is
    no test of the format the upload came in. *)
Definition normalize (raw_bytes : bytes) : py bytes :=
  pil_img ← decode raw_bytes;
  save_JPEG pil_img.

Definition analyze_request (endpoint api_key : string) (image_bytes : bytes) : request :=
  {| url := Str.rstrip_chars "/" endpoint +:+ "/vision/v3.2/analyze";
     headers := [("Content-Type", "application/octet-stream");
                 ("Ocp-Apim-Subscription-Key", api_key)];
     params := [("visualFeatures", "Description,Objects,Tags")];
     data := image_bytes;
     timeout := 30 |}.

(** Lines 117 to 233: what a click on the button runs. *)
Definition analyze (endpoint api_key : string) (raw_bytes : bytes) : ui unit :=
  emit (spinner "Analyzing image...");;
  image_bytes ← eval (normalize raw_bytes);
  let r := analyze_request endpoint api_key image_bytes in
  emit (post r);;
  response ← eval (requests_post r);
  (if negb (status_code response =? 200)%Z then
     emit (error (text response));;
     stop
   else mret tt);;
  result ← eval (json response);
  summarize result;;
  emit (expander "Raw API Response");;
  emit (json_shown result).

Definition script (i : inputs) : ui unit :=
  emit set_page_config;;
  emit (markdown Page Style);;
  emit (markdown Page Header);;
  (if unset (AZURE_VISION_ENDPOINT i) || unset (AZURE_VISION_API_KEY i) then
     emit (error "Azure Computer Vision credentials missing in .env");;
     stop
   else mret tt);;
  emit (markdown Page (Heading 2 "Upload Image"));;
  emit file_uploader;;
  match uploaded_file i with
  | Some raw_bytes =>
      img ← eval (Image_open raw_bytes);
      emit (markdown Page ImageBoxOpen);;
      eval (st_image img);;
      emit image_drawn;;
      emit (markdown Page DivClose);;
      emit (markdown Page LineBreak);;
      emit button;;
      if analyze_clicked i then
        analyze (default "" (AZURE_VISION_ENDPOINT i))
                (default "" (AZURE_VISION_API_KEY i)) raw_bytes
      else mret tt
  | None => mret tt
  end;;
  emit (markdown Page Footer).

End Script.

(** ** The documented shape of a response *)

Record Caption := { cap_text : string; cap_confidence : float }.
Record DetectedObject := { obj_label : string; obj_confidence : float }.
Record Tag := { tag_name : string; tag_confidence : float }.

(** The three substructures of a response, each of which may be absent. *)
Record AnalysisResult := {
  captions : option (list Caption);
  objects : option (list DetectedObject);
  tags : option (list Tag)
}.

Definition parse_entry {A} (mk : string -> float -> A) (key : string) (v : value) : option A :=
  match v with
  | VDict d =>
      match Py.lookup_item key d, Py.lookup_item "confidence" d with
      | Some (VStr s), Some (VFloat c) => Some (mk s c)
      | _, _ => None
      end
  | _ => None
  end.

Definition parse_caption : value -> option Caption := parse_entry Build_Caption "text".
Definition parse_object : value -> option DetectedObject := parse_entry Build_DetectedObject "object".
Definition parse_tag : value -> option Tag := parse_entry Build_Tag "name".

(** An optional sequence under key [key]: absent, or a list of entries. *)
Definition parse_field {A} (parse : value -> option A) (key : string)
    (d : list (string * value)) : option (option (list A)) :=
  match Py.lookup_item key d with
  | None => Some None
  | Some (VList l) => Some <$> mapM parse l
  | Some _ => None
  end.

(** The captions under "description", which may itself be absent. *)
Definition parse_description (d : list (string * value)) : option (option (list Caption)) :=
  match Py.lookup_item "description" d with
  | None => Some None
  | Some (VDict dd) => parse_field parse_caption "captions" dd
  | Some _ => None
  end.

(** Reads a JSON value as an [AnalysisResult]: a dict whose "description",
    when present, is a dict whose "captions", when present, is a list of
    captions; whose "objects" and "tags", when present, are lists of objects
    and tags.  Other keys are ignored. *)
Definition parse_result (v : value) : option AnalysisResult :=
  match v with
  | VDict d =>
      cs ← parse_description d;
      os ← parse_field parse_object "objects" d;
      ts ← parse_field parse_tag "tags" d;
      Some {| captions := cs; objects := os; tags := ts |}
  | _ => None
  end.

(** An absent sequence reads as the empty one. *)
Definition seq_of {A} (field : option (list A)) : list A := default [] field.

(** ** The summary, as the specification words it *)

Module Spec.

(** Step 4: the base sentence, then the clauses that are present, joined
    with ". " and closed with a period. *)
Definition clauses (labels names : list string) : list string :=
  (match labels with
   | [] => []
   | _ => ["It seems to show " +:+ Str.join ", " labels]
   end) ++
  (match names with
   | [] => []
   | _ => ["The scene relates to " +:+ Str.join ", " names]
   end).

Definition narrative (caption : string) (labels names : list string) : string :=
  "The AI thinks this image is about " +:+ caption +:+ "." +:+
  match clauses labels names with
  | [] => ""
  | cs => " " +:+ Str.join ". " cs +:+ "."
  end.

(** Steps 6 and 7: the listing views. *)
Definition object_view (os : list DetectedObject) : list (string * string) :=
  map (fun o => (Str.title (obj_label o), Fmt.percent_of_float 1 (obj_confidence o))) os.

Definition tag_view (ts : list Tag) : list (string * string) :=
  map (fun t => (tag_name t, Fmt.percent_of_float 0 (tag_confidence t))) ts.

(** Steps 1 to 5: the caption with its confidence and the capped
    narrative, or the "no description" state. *)
Definition description_section (r : AnalysisResult) : list event :=
  [markdown Page SectionOpen; markdown Page (Heading 2 "Image Description")] ++
  match seq_of (captions r) with
  | [] => [warning "No description detected"]
  | c :: _ =>
      [markdown Page
         (CaptionCard (cap_text c) (Fmt.percent_of_float 1 (cap_confidence c)));
       markdown Page (Heading 4 "Summary (within 100 words)");
       markdown Page
         (SummaryParagraph
            (hard_cap (narrative (cap_text c)
                         (take 5 (obj_label <$> seq_of (objects r)))
                         (take 5 (tag_name <$> seq_of (tags r))))))]
  end ++
  [markdown Page DivClose].

(** Steps 6 and 8: one card per object, or the "none detected" state. *)
Definition object_cards (os : list DetectedObject) : list event :=
  imap (fun i o =>
          markdown (Column (i mod 2))
            (ObjectCard (Str.title (obj_label o))
               (Fmt.percent_of_float 1 (obj_confidence o))))
       os.

Definition objects_section (r : AnalysisResult) : list event :=
  [markdown Page SectionOpen; markdown Page (Heading 2 "Detected Objects")] ++
  match seq_of (objects r) with
  | [] => [warning "No objects detected"]
  | os => columns 2 :: object_cards os
  end ++
  [markdown Page DivClose].

(** Steps 7 and 8: one chip per tag, or the "none detected" state. *)
Definition tags_section (r : AnalysisResult) : list event :=
  [markdown Page SectionOpen; markdown Page (Heading 2 "Image Tags")] ++
  match seq_of (tags r) with
  | [] => [warning "No tags detected"]
  | ts => [markdown Page (TagChips (tag_view ts))]
  end ++
  [markdown Page DivClose].

End Spec.

(** ** Reading the views off a trace *)

Definition object_card_of (e : event) : option (string * string) :=
  match e with
  | markdown _ (ObjectCard label confidence) => Some (label, confidence)
  | _ => None
  end.

Definition tag_chips_of (e : event) : list (string * string) :=
  match e with
  | markdown _ (TagChips spans) => spans
  | _ => []
  end.

Definition paragraph_of (e : event) : option string :=
  match e with
  | markdown _ (SummaryParagraph p) => Some p
  | _ => None
  end.

Definition caption_card_of (e : event) : option (string * string) :=
  match e with
  | markdown _ (CaptionCard h3 confidence) => Some (h3, confidence)
  | _ => None
  end.

(** The object cards drawn, in the order drawn. *)
Definition object_listing (t : list event) : list (string * string) := omap object_card_of t.

(** The tag chips drawn, in the order drawn. *)
Definition tag_listing (t : list event) : list (string * string) := t ≫= tag_chips_of.

(** The narrative paragraphs drawn. *)
Definition paragraphs (t : list event) : list string := omap paragraph_of t.

Definition caption_cards (t : list event) : list (string * string) := omap caption_card_of t.

Definition is_post (e : event) : bool :=
  match e with
  | post _ => true
  | _ => false
  end.

(** A call made only while results are rendered (lines 149 to 233). *)
Definition is_result_output (e : event) : bool :=
  match e with
  | markdown _ (SectionOpen | CaptionCard _ _ | SummaryParagraph _
               | ObjectCard _ _ | TagChips _) => true
  | markdown _ (Heading _ c) => negb (String.eqb c "Upload Image")
  | warning _ | columns _ | expander _ | json_shown _ => true
  | _ => false
  end.

(** ** Responses with top-level fields missing *)

Definition top_level : list string := ["description"; "objects"; "tags"].

(** The dict without key [k]. *)
Fixpoint without_key (k : string) (d : list (string * value)) : list (string * value) :=
  match d with
  | [] => []
  | (k', v) :: rest =>
      if String.eqb k k' then without_key k rest else (k', v) :: without_key k rest
  end.

Definition without_keys (ks : list string) (d : list (string * value)) :=
  foldr without_key d ks.

(** The empty sequence under key [k]: no caption, no object, no tag. *)
Definition empty_of (k : string) : value :=
  if String.eqb k "description" then VDict [("captions", VList [])] else VList [].

(** [d[k] = empty], then the same for each of the keys. *)
Definition set_empty (k : string) (d : list (string * value)) : list (string * value) :=
  (k, empty_of k) :: without_key k d.

Definition with_empty (ks : list string) (d : list (string * value)) :=
  foldr set_empty d ks.

(** The state drawn for an empty sequence. *)
Definition empty_state (k : string) : event :=
  if String.eqb k "description" then warning "No description detected"
  else if String.eqb k "objects" then warning "No objects detected"
  else warning "No tags detected".

(** ** Sample responses *)

Module Sample.

Definition entry (key label : string) (confidence : float) : value :=
  VDict [(key, VStr label); ("confidence", VFloat confidence)].

(** The scenario of the specification, with the extra fields a real
    response carries. *)
Definition cat_on_chair : value :=
  VDict [("description",
          VDict [("tags", VList [VStr "cat"; VStr "chair"]);
                 ("captions", VList [entry "text" "a cat sitting on a chair" 0.91])]);
         ("objects", VList [entry "object" "cat" 0.95; entry "object" "chair" 0.80]);
         ("tags", VList [entry "name" "animal" 0.99; entry "name" "furniture" 0.77]);
         ("requestId", VStr "0f3a");
         ("metadata", VDict [("width", VInt 640); ("height", VInt 480)])].

(** Two captions, the second with the higher confidence. *)
Definition two_captions : value :=
  VDict [("description",
          VDict [("captions", VList [entry "text" "a cat sitting on a chair" 0.91;
                                     entry "text" "a dog on a sofa" 0.99])]);
         ("objects", VList [entry "object" "cat" 0.95; entry "object" "chair" 0.80]);
         ("tags", VList [entry "name" "animal" 0.99; entry "name" "furniture" 0.77])].

(** A caption of 120 words. *)
Definition long_caption : value :=
  VDict [("description",
          VDict [("captions",
                  VList [entry "text" (Str.join " " (replicate 120 "very")) 0.5])]);
         ("objects", VList [entry "object" "cat" 0.95])].

(** Seven objects and six tags. *)
Definition crowded : value :=
  VDict [("description", VDict [("captions", VList [entry "text" "a street" 0.6])]);
         ("objects", VList (map (fun s => entry "object" s 0.5)
                                ["car"; "bus"; "bike"; "person"; "dog"; "tree"; "sign"]));
         ("tags", VList (map (fun s => entry "name" s 0.4)
                             ["road"; "city"; "outdoor"; "day"; "traffic"; "sky"]))].

(** The same with only the first five of each. *)
Definition crowded_first_five : value :=
  VDict [("description", VDict [("captions", VList [entry "text" "a street" 0.6])]);
         ("objects", VList (map (fun s => entry "object" s 0.5)
                                ["car"; "bus"; "bike"; "person"; "dog"]));
         ("tags", VList (map (fun s => entry "name" s 0.4)
                             ["road"; "city"; "outdoor"; "day"; "traffic"]))].

(** No caption: an empty list, and no "description" at all. *)
Definition no_caption : value :=
  VDict [("description", VDict [("captions", VList [])]);
         ("objects", VList [entry "object" "cat" 0.95])].

Definition parsed (v : value) : AnalysisResult :=
  default {| captions := None; objects := None; tags := None |} (parse_result v).

End Sample.

(** ** A stand-in for Pillow and the service *)

Module Toy.

(** An image is its pixel data; the empty upload is not an image; the
    service refuses every request. *)
Definition image : Type := bytes.

Definition Image_open (raw : bytes) : py image :=
  match raw with
  | [] => Raise (LibraryError "UnidentifiedImageError")
  | _ => Ok raw
  end.

Definition convert_RGB (img : image) : py image := Ok img.
Definition save_JPEG (img : image) : py bytes := Ok img.
Definition st_image (img : image) : py unit := Ok tt.

Definition requests_post (r : request) : py response :=
  Ok {| status_code := 401;
        text := "{'error': {'code': '401', 'message': 'Access denied'}}";
        json := Raise ValueError |}.

Definition click (raw : bytes) : inputs :=
  {| AZURE_VISION_ENDPOINT := Some "https://vision.example/";
     AZURE_VISION_API_KEY := Some "k";
     uploaded_file := Some raw;
     analyze_clicked := true |}.

End Toy.

(** ** More readings of the page, for the rest of the script *)

(** The calls the three sections are written with: [st.markdown],
    [st.warning] and [st.columns]. *)
Definition is_section_call (e : event) : bool :=
  match e with
  | markdown _ _ | warning _ | columns _ => true
  | _ => false
  end.

Definition is_error (e : event) : bool :=
  match e with
  | error _ => true
  | _ => false
  end.

(** The requests sent, in order. *)
Definition request_of (e : event) : option request :=
  match e with
  | post r => Some r
  | _ => None
  end.

Definition posts (t : list event) : list request := omap request_of t.

(** The object cards drawn in column [k], in the order drawn. *)
Definition card_in_column (k : nat) (e : event) : option (string * string) :=
  match e with
  | markdown (Column i) (ObjectCard label confidence) =>
      if Nat.eqb i k then Some (label, confidence) else None
  | _ => None
  end.

Definition column_cards (k : nat) (t : list event) : list (string * string) :=
  omap (card_in_column k) t.

(** Every other element of a list, starting with the first when [keep]. *)
Fixpoint every_other {A} (keep : bool) (l : list A) : list A :=
  match l with
  | [] => []
  | x :: l' => if keep then x :: every_other false l' else every_other true l'
  end.

(** [d[k] = x] *)
Definition set_key (k : string) (x : value) (d : list (string * value))
    : list (string * value) :=
  (k, x) :: without_key k d.

Definition isdigit (c : ascii) : bool :=
  let n := Str.code c in ((48 <=? n) && (n <=? 57))%N.

Fixpoint all_digits (s : string) : bool :=
  match s with
  | EmptyString => true
  | String c s' => isdigit c && all_digits s'
  end.

Fixpoint slashes (n : nat) : string :=
  match n with
  | O => ""
  | S n' => String "/" (slashes n')
  end.

(** A float that is a number: neither NaN nor an infinity. *)
Definition is_number (x : float) : bool :=
  match Prim2SF x with
  | S754_zero _ | S754_finite _ _ _ => true
  | S754_nan | S754_infinity _ => false
  end.

(** ** Stand-ins for the service's answers *)

Module Service.

(** The service answers 200 with the scenario of the specification. *)
Definition answers (r : request) : py response :=
  Ok {| status_code := 200; text := "{...}"; json := Ok Sample.cat_on_chair |}.

(** The request times out. *)
Definition times_out (r : request) : py response :=
  Raise (LibraryError "ReadTimeout").

(** The service answers 200 with a body that is not JSON. *)
Definition answers_html (r : request) : py response :=
  Ok {| status_code := 200; text := "<html>"; json := Raise ValueError |}.

Definition jpeg_magic : bytes := [Byte.xff; Byte.xd8].

Definition no_click (raw : bytes) : inputs :=
  {| AZURE_VISION_ENDPOINT := Some "https://vision.example/";
     AZURE_VISION_API_KEY := Some "k";
     uploaded_file := Some raw;
     analyze_clicked := false |}.

End Service.

(** ** ASCII text, title case and percentages in plain words *)

(** [s.isascii()].  On such text the character classes of [Str] are
    Python's, so [Str.split], [Str.strip] and [Str.title] are [str.split],
    [str.strip] and [str.title]; the statements that depend on a character
    class ask for it. *)
Definition isascii_char (c : ascii) : bool := (Str.code c <? 128)%N.

Fixpoint isascii (s : string) : bool :=
  match s with
  | EmptyString => true
  | String c s' => isascii_char c && isascii s'
  end.

Module Plain.

Definition small_letters : string := "abcdefghijklmnopqrstuvwxyz".
Definition capital_letters : string := "ABCDEFGHIJKLMNOPQRSTUVWXYZ".

(** The character of [to] at the place [c] has in [from]. *)
Fixpoint counterpart (c : ascii) (from to : string) : option ascii :=
  match from, to with
  | String a from', String b to' =>
      if Ascii.eqb c a then Some b else counterpart c from' to'
  | _, _ => None
  end.

Definition capital (c : ascii) : ascii :=
  default c (counterpart c small_letters capital_letters).

Definition small (c : ascii) : ascii :=
  default c (counterpart c capital_letters small_letters).

Definition letter (c : ascii) : bool :=
  match counterpart c small_letters capital_letters,
        counterpart c capital_letters small_letters with
  | None, None => false
  | _, _ => true
  end.

(** Title case: a letter that follows a letter is small, any other letter
    is a capital, and what is not a letter stays as it is. *)
Fixpoint title_case (after_letter : bool) (s : string) : string :=
  match s with
  | EmptyString => EmptyString
  | String c s' =>
      String (if after_letter then small c else capital c) (title_case (letter c) s')
  end.

(** The text with every letter small. *)
Fixpoint all_small (s : string) : string :=
  match s with
  | EmptyString => EmptyString
  | String c s' => String (small c) (all_small s')
  end.




Definition negative (x : float) : bool :=
  match Prim2SF x with
  | S754_zero s | S754_infinity s | S754_finite s _ _ => s
  | S754_nan => false
  end.



End Plain.

(** * Properties *)

(** ** The embedding at work *)

Example title_words : Str.title "traffic light" = "Traffic Light".
Proof. reflexivity. Qed.

Example title_after_digit_and_quote :
  Str.title "heLLo wORLD 3d-printer it's" = "Hello World 3D-Printer It'S".
Proof. reflexivity. Qed.

Example split_runs :
  Str.split (String "009" " a  cat" +:+ String "010" "sat. ") = ["a"; "cat"; "sat."].
Proof. reflexivity. Qed.

Example strip_both_sides : Str.strip "  a b  " = "a b".
Proof. reflexivity. Qed.

Example rstrip_slashes :
  Str.rstrip_chars "/" "https://x.example//" = "https://x.example".
Proof. reflexivity. Qed.

(** Ties go to the even digit, on the binary value of the product. *)
Example percent_half_even :
  Fmt.percent 0 (VFloat 0.005) = Ok "0%" /\
  Fmt.percent 0 (VFloat 0.025) = Ok "2%" /\
  Fmt.percent 1 (VFloat 0.0005) = Ok "0.1%" /\
  Fmt.percent 1 (VFloat 1) = Ok "100.0%" /\
  Fmt.percent 1 (VInt 1) = Ok "100.0%".
Proof. repeat split; vm_compute; reflexivity. Qed.

(** The scenario of the specification, from the first call to the last. *)
Example summarize_cat_on_chair :
  summarize Sample.cat_on_chair =
    ([markdown Page SectionOpen;
      markdown Page (Heading 2 "Image Description");
      markdown Page (CaptionCard "a cat sitting on a chair" "91.0%");
      markdown Page (Heading 4 "Summary (within 100 words)");
      markdown Page
        (SummaryParagraph
           "The AI thinks this image is about a cat sitting on a chair. It seems to show cat, chair. The scene relates to animal, furniture.");
      markdown Page DivClose;
      markdown Page SectionOpen;
      markdown Page (Heading 2 "Detected Objects");
      columns 2;
      markdown (Column 0) (ObjectCard "Cat" "95.0%");
      markdown (Column 1) (ObjectCard "Chair" "80.0%");
      markdown Page DivClose;
      markdown Page SectionOpen;
      markdown Page (Heading 2 "Image Tags");
      markdown Page (TagChips [("animal", "99%"); ("furniture", "77%")]);
      markdown Page DivClose],
     Ok tt).
Proof. vm_compute. reflexivity. Qed.

(** Outside the documented shape the script raises where Python does: a
    null "description" has no [get]; an object without "object" fails in
    the comprehension of line 164 when there is a caption, and in the loop
    of line 204, after the columns are made, when there is none. *)
Example null_description_raises :
  summarize (VDict [("description", VNone)]) =
    ([markdown Page SectionOpen; markdown Page (Heading 2 "Image Description")],
     Raise AttributeError).
Proof. reflexivity. Qed.

Example object_without_label_raises :
  summarize (VDict [("objects", VList [VDict [("confidence", VFloat 0.5)]])]) =
    ([markdown Page SectionOpen; markdown Page (Heading 2 "Image Description");
      warning "No description detected"; markdown Page DivClose;
      markdown Page SectionOpen; markdown Page (Heading 2 "Detected Objects");
      columns 2],
     Raise KeyError).
Proof. reflexivity. Qed.

(** ** Strings *)

Lemma append_cons (x : ascii) (a b : string) : String x a +:+ b = String x (a +:+ b).
Proof. reflexivity. Qed.

Lemma append_nil (b : string) : "" +:+ b = b.
Proof. reflexivity. Qed.

Lemma append_empty_r (a : string) : a +:+ "" = a.
Proof.
  induction a as [|x a IH]; [reflexivity|].
  rewrite append_cons. now rewrite IH.
Qed.

Lemma append_assoc_str (a b c : string) : (a +:+ b) +:+ c = a +:+ (b +:+ c).
Proof.
  induction a as [|x a IH]; [reflexivity|].
  rewrite !append_cons. now rewrite IH.
Qed.

Lemma nospace_app (a b : string) :
  Str.nospace (a +:+ b) = Str.nospace a && Str.nospace b.
Proof.
  induction a as [|x a IH]; [reflexivity|].
  rewrite append_cons. cbn [Str.nospace]. rewrite IH. now rewrite andb_assoc.
Qed.

Lemma is_word_nospace (w : string) : Str.is_word w -> Str.nospace w.
Proof. destruct w; simpl; [intros [] | trivial]. Qed.

Lemma is_word_cons (c : ascii) (w : string) :
  Str.isspace c = false -> Str.nospace w -> Str.is_word (String c w).
Proof. intros Hc Hw. simpl. rewrite Hc. exact Hw. Qed.

Lemma is_word_inv (c : ascii) (w : string) :
  Str.is_word (String c w) -> Str.isspace c = false /\ Str.nospace w.
Proof.
  simpl. destruct (Str.isspace c); simpl; [intros [] | auto].
Qed.

(** A word keeps being one when text without whitespace is appended. *)
Lemma is_word_app (w x : string) :
  Str.is_word w -> Str.nospace x -> Str.is_word (w +:+ x).
Proof.
  destruct w as [|c w]; [intros [] |].
  intros [Hc Hw]%is_word_inv Hx. rewrite append_cons.
  apply is_word_cons; [exact Hc|].
  rewrite nospace_app. apply andb_True. split; assumption.
Qed.

(** [split] reads a word up to the whitespace that ends it. *)
Lemma split_word_then_space (w : string) (c : ascii) (s : string) :
  Str.is_word w -> Str.isspace c = true ->
  Str.split (w +:+ String c s) = w :: Str.split s.
Proof.
  intros Hw Hc. induction w as [|a w IH]; [destruct Hw|].
  apply is_word_inv in Hw as [Ha Hw].
  rewrite append_cons. cbn [Str.split]. rewrite Ha.
  destruct w as [|b w].
  - rewrite append_nil, Hc. cbn [Str.split]. rewrite Hc. reflexivity.
  - assert (Hbw : Str.is_word (String b w)) by exact Hw.
    destruct (is_word_inv _ _ Hbw) as [Hb _].
    specialize (IH Hbw). rewrite append_cons in *.
    rewrite Hb, IH. reflexivity.
Qed.

Lemma split_one_word (w : string) : Str.is_word w -> Str.split w = [w].
Proof.
  induction w as [|a w IH]; [intros []|].
  intros [Ha Hw]%is_word_inv. cbn [Str.split]. rewrite Ha.
  destruct w as [|b w]; [reflexivity|].
  assert (Hbw : Str.is_word (String b w)) by exact Hw.
  destruct (is_word_inv _ _ Hbw) as [Hb _].
  rewrite Hb, (IH Hbw). reflexivity.
Qed.

(** Every string [split] returns is a word. *)
Lemma split_words (s : string) : Forall Str.is_word (Str.split s).
Proof.
  induction s as [|c s IH]; [constructor|].
  cbn [Str.split]. destruct (Str.isspace c) eqn:Hc; [exact IH|].
  destruct s as [|c' s'].
  - repeat constructor. simpl. now rewrite Hc.
  - destruct (Str.isspace c') eqn:Hc'.
    + constructor; [simpl; now rewrite Hc | exact IH].
    + destruct (Str.split (String c' s')) as [|w ws].
      * repeat constructor. simpl. now rewrite Hc.
      * inversion IH as [|? ? Hw Hws]; subst.
        constructor; [|exact Hws].
        apply is_word_cons; [exact Hc | now apply is_word_nospace].
Qed.

(** Joining words with one space and splitting again gives the words back. *)
Lemma split_join_words (ws : list string) :
  Forall Str.is_word ws -> Str.split (Str.join " " ws) = ws.
Proof.
  induction 1 as [|w ws Hw Hws IH]; [reflexivity|].
  destruct ws as [|w' ws'].
  - simpl. now apply split_one_word.
  - change (Str.join " " (w :: w' :: ws'))
      with (w +:+ String " " (Str.join " " (w' :: ws'))).
    rewrite split_word_then_space; [|exact Hw|reflexivity].
    now rewrite IH.
Qed.

(** Text appended to a joined list lands on its last item. *)
Lemma join_snoc_append (sep : string) (l : list string) (w x : string) :
  Str.join sep (l ++ [w]) +:+ x = Str.join sep (l ++ [w +:+ x]).
Proof.
  induction l as [|a l IH]; [reflexivity|].
  destruct l as [|b l].
  - cbn [app Str.join]. now rewrite !append_assoc_str.
  - change (Str.join sep ((a :: b :: l) ++ [w]))
      with (a +:+ sep +:+ Str.join sep ((b :: l) ++ [w])).
    change (Str.join sep ((a :: b :: l) ++ [w +:+ x]))
      with (a +:+ sep +:+ Str.join sep ((b :: l) ++ [w +:+ x])).
    rewrite <- IH. now rewrite !append_assoc_str.
Qed.


(** [strip] leaves alone a text that starts and ends with visible
    characters. *)
Lemma rstrip_by_visible_end (p : ascii -> bool) (s : string) (c : ascii) :
  p c = false -> Str.rstrip_by p (s +:+ String c "") = s +:+ String c "".
Proof.
  intros Hc. induction s as [|a s IH].
  - rewrite append_nil. simpl. now rewrite Hc.
  - rewrite append_cons. cbn [Str.rstrip_by]. rewrite IH.
    destruct s; reflexivity.
Qed.

Lemma strip_visible_ends (a : ascii) (s : string) (c : ascii) :
  Str.isspace a = false -> Str.isspace c = false ->
  Str.strip (String a (s +:+ String c "")) = String a (s +:+ String c "").
Proof.
  intros Ha Hc. unfold Str.strip. cbn [Str.lstrip_by]. rewrite Ha.
  exact (rstrip_by_visible_end Str.isspace (String a s) c Hc).
Qed.

(** ** The cap of 100 words *)

Lemma hard_cap_short (p : string) :
  length (Str.split p) <= 100 -> hard_cap p = p.
Proof.
  intros H. unfold hard_cap.
  destruct (Nat.ltb_spec 100 (length (Str.split p))); [lia | reflexivity].
Qed.

Lemma hard_cap_long (p : string) :
  100 < length (Str.split p) ->
  hard_cap p = Str.join " " (take 100 (Str.split p)) +:+ "...".
Proof.
  intros H. unfold hard_cap.
  destruct (Nat.ltb_spec 100 (length (Str.split p))); [reflexivity | lia].
Qed.

(** The words of a capped paragraph: the first 99 words as they were, and
    the 100th with the dots attached. *)
Lemma split_hard_cap_long (p : string) :
  100 < length (Str.split p) ->
  exists w, Str.split p !! 99 = Some w /\
    Str.split (hard_cap p) = take 99 (Str.split p) ++ [w +:+ "..."].
Proof.
  intros H. pose proof (split_words p) as Hws.
  destruct (lookup_lt_is_Some_2 (Str.split p) 99 ltac:(lia)) as [w Hw].
  exists w. split; [exact Hw|].
  rewrite (hard_cap_long p H), (take_S_r _ _ _ Hw), join_snoc_append.
  apply split_join_words, Forall_app. split.
  - now apply Forall_take.
  - constructor; [|constructor].
    apply is_word_app; [|reflexivity].
    exact (Forall_lookup_1 _ _ _ _ Hws Hw).
Qed.

(** ** Reading a response of the documented shape *)

Section Entries.

Context {A : Type} (mk : string -> float -> A) (key : string).
Context (label : A -> string) (confidence : A -> float).
Hypothesis label_mk : forall s c, label (mk s c) = s.
Hypothesis confidence_mk : forall s c, confidence (mk s c) = c.

Lemma parse_entry_inv (v : value) (a : A) :
  parse_entry mk key v = Some a ->
  exists d, v = VDict d /\
    Py.lookup_item key d = Some (VStr (label a)) /\
    Py.lookup_item "confidence" d = Some (VFloat (confidence a)).
Proof using label_mk confidence_mk.
  unfold parse_entry. destruct v as [| | | | |l|d]; try discriminate.
  destruct (Py.lookup_item key d) as [[]|] eqn:Hl; try discriminate.
  destruct (Py.lookup_item "confidence" d) as [[]|] eqn:Hc; try discriminate.
  intros [= <-]. rewrite label_mk, confidence_mk.
  exists d. rewrite Hl. auto.
Qed.

Lemma getitem_label (v : value) (a : A) :
  parse_entry mk key v = Some a -> Py.getitem v key = Ok (VStr (label a)).
Proof using label_mk confidence_mk.
  intros (d & -> & Hl & _)%parse_entry_inv. unfold Py.getitem. now rewrite Hl.
Qed.

Lemma getitem_confidence (v : value) (a : A) :
  parse_entry mk key v = Some a ->
  Py.getitem v "confidence" = Ok (VFloat (confidence a)).
Proof using label_mk confidence_mk.
  intros (d & -> & _ & Hc)%parse_entry_inv. unfold Py.getitem. now rewrite Hc.
Qed.

(** [[o[key] for o in entries]] *)
Lemma comprehension_labels (l : list value) (xs : list A) :
  Forall2 (fun v x => parse_entry mk key v = Some x) l xs ->
  comprehension (fun o => Py.getitem o key) l = Ok (VStr <$> (label <$> xs)).
Proof using label_mk confidence_mk.
  induction 1 as [|v x l xs Hv _ IH]; [reflexivity|].
  cbn [comprehension]. rewrite (getitem_label v x Hv), IH. reflexivity.
Qed.

(** What [result.get(field, [])], [result.get(field)] and [result[field]]
    give when the field parses. *)
Lemma get_field_or_empty (field : string) (d : list (string * value)) xs :
  parse_field (parse_entry mk key) field d = Some xs ->
  exists l,
    Py.get (VDict d) field (VList []) = Ok (VList l) /\
    Forall2 (fun v x => parse_entry mk key v = Some x) l (seq_of xs).
Proof.
  unfold parse_field, Py.get.
  destruct (Py.lookup_item field d) as [[| | | | |l|]|]; try discriminate.
  - destruct (mapM _ l) as [ys|] eqn:Hys; [|discriminate].
    intros [= <-]. exists l. split; [reflexivity|]. now apply mapM_Some_1.
  - intros [= <-]. exists []. split; [reflexivity | constructor].
Qed.

Lemma get_field_or_none (field : string) (d : list (string * value)) xs :
  parse_field (parse_entry mk key) field d = Some xs ->
  exists w l,
    Py.get (VDict d) field VNone = Ok w /\
    Py.truthy w = match seq_of xs with [] => false | _ => true end /\
    Forall2 (fun v x => parse_entry mk key v = Some x) l (seq_of xs) /\
    (Py.truthy w = true -> Py.getitem (VDict d) field = Ok (VList l)).
Proof.
  unfold parse_field, Py.get, Py.getitem.
  destruct (Py.lookup_item field d) as [[| | | | |l|]|]; try discriminate.
  - destruct (mapM _ l) as [ys|] eqn:Hys; [|discriminate].
    intros [= <-]. apply mapM_Some_1 in Hys.
    exists (VList l), l. repeat split; [|exact Hys].
    destruct Hys; reflexivity.
  - intros [= <-]. exists VNone, []. repeat split; [constructor | discriminate].
Qed.

End Entries.

Lemma join_strs (sep : string) (ss : list string) :
  Py.join sep (VStr <$> ss) = Ok (Str.join sep ss).
Proof.
  unfold Py.join.
  assert (H : comprehension Py.as_str (VStr <$> ss) = Ok ss).
  { induction ss as [|s ss IH]; [reflexivity|].
    cbn [fmap list_fmap comprehension Py.as_str]. cbn. 
    change (list_fmap string value VStr ss) with (VStr <$> ss).
    now rewrite IH. }
  now rewrite H.
Qed.

Lemma truthy_strs (ss : list string) :
  Py.truthy (VList (VStr <$> ss)) = match ss with [] => false | _ => true end.
Proof. now destruct ss. Qed.

Lemma parse_result_inv (v : value) (r : AnalysisResult) :
  parse_result v = Some r ->
  exists d, v = VDict d /\
    parse_description d = Some (captions r) /\
    parse_field parse_object "objects" d = Some (objects r) /\
    parse_field parse_tag "tags" d = Some (tags r).
Proof.
  unfold parse_result. destruct v as [| | | | | |d]; try discriminate.
  destruct (parse_description d) as [cs|] eqn:Hc; [|discriminate].
  destruct (parse_field parse_object "objects" d) as [os|] eqn:Ho; [|discriminate].
  destruct (parse_field parse_tag "tags" d) as [ts|] eqn:Ht; [|discriminate].
  intros [= <-]. exists d. repeat split; assumption.
Qed.

(** ** The narrative paragraph *)

Lemma strip_sentence (a : ascii) (s t : string) :
  Str.isspace a = false ->
  Str.strip ((String a s +:+ t) +:+ ".") = (String a s +:+ t) +:+ ".".
Proof.
  intros Ha. rewrite append_cons. now apply strip_visible_ends.
Qed.

Lemma strip_narrative (caption : string) (labels names : list string) :
  Str.strip (Spec.narrative caption labels names) = Spec.narrative caption labels names.
Proof.
  unfold Spec.narrative.
  set (P := "The AI thinks this image is about ").
  destruct (Spec.clauses labels names) as [|c cs].
  - change (P +:+ caption +:+ "." +:+ "") with (P +:+ caption +:+ ".").
    rewrite <- append_assoc_str. now apply strip_sentence.
  - set (J := Str.join ". " (c :: cs)).
    change (P +:+ caption +:+ "." +:+ " " +:+ J +:+ ".")
      with (P +:+ caption +:+ ". " +:+ J +:+ ".").
    rewrite <- !append_assoc_str. rewrite (append_assoc_str P).
    rewrite (append_assoc_str P). now apply strip_sentence.
Qed.

Lemma build_paragraph_spec (v cap : value) (r : AnalysisResult) (c : Caption) :
  parse_result v = Some r -> parse_caption cap = Some c ->
  build_paragraph v cap =
    Ok (Spec.narrative (cap_text c)
          (take 5 (obj_label <$> seq_of (objects r)))
          (take 5 (tag_name <$> seq_of (tags r)))).
Proof.
  intros (d & -> & _ & Ho & Ht)%parse_result_inv Hc.
  destruct (get_field_or_empty Build_DetectedObject "object" "objects" d _ Ho)
    as (lo & Hgo & Hlo).
  destruct (get_field_or_empty Build_Tag "name" "tags" d _ Ht)
    as (lt & Hgt & Hlt).
  rewrite <- strip_narrative.
  unfold build_paragraph.
  rewrite Hgo. cbn [mbind py_bind Py.iter].
  rewrite (comprehension_labels Build_DetectedObject "object" obj_label obj_confidence
             ltac:(reflexivity) ltac:(reflexivity) _ _ Hlo).
  cbn [mbind py_bind].
  rewrite Hgt. cbn [mbind py_bind Py.iter].
  rewrite (comprehension_labels Build_Tag "name" tag_name tag_confidence
             ltac:(reflexivity) ltac:(reflexivity) _ _ Hlt).
  cbn [mbind py_bind].
  rewrite <- !(fmap_take VStr), !truthy_strs.
  rewrite (getitem_label Build_Caption "text" cap_text cap_confidence
             ltac:(reflexivity) ltac:(reflexivity) _ _ Hc).
  unfold Spec.narrative, Spec.clauses.
  destruct (take 5 (obj_label <$> seq_of (objects r))) as [|o os];
    destruct (take 5 (tag_name <$> seq_of (tags r))) as [|t ts];
    rewrite ?join_strs; cbn [mbind py_bind Py.str app];
    now rewrite !append_assoc_str.
Qed.

(** ** The three sections *)

Lemma percent_float (digits : nat) (c : float) :
  Fmt.percent digits (VFloat c) = Ok (Fmt.percent_of_float digits c).
Proof. reflexivity. Qed.

Lemma read_captions (d : list (string * value)) caps :
  parse_description d = Some caps ->
  exists desc w l,
    Py.get (VDict d) "description" (VDict []) = Ok desc /\
    Py.get desc "captions" VNone = Ok w /\
    Py.truthy w = match seq_of caps with [] => false | _ => true end /\
    Forall2 (fun v x => parse_caption v = Some x) l (seq_of caps) /\
    (Py.truthy w = true ->
     Py.getitem (VDict d) "description" = Ok desc /\
     Py.getitem desc "captions" = Ok (VList l)).
Proof.
  unfold parse_description.
  destruct (Py.lookup_item "description" d) as [[| | | | | |dd]|] eqn:Hd;
    try discriminate.
  - intros (w & l & Hw & Ht & Hl & Hg)%(get_field_or_none Build_Caption "text").
    exists (VDict dd), w, l. unfold Py.get at 1, Py.getitem at 1. rewrite Hd.
    repeat split; auto.
  - intros [= <-]. exists (VDict []), VNone, []. unfold Py.get at 1. rewrite Hd.
    repeat split; try reflexivity; try constructor; discriminate.
Qed.

Lemma image_description_spec (v : value) (r : AnalysisResult) :
  parse_result v = Some r ->
  image_description v = (Spec.description_section r, Ok tt).
Proof.
  intros Hv. pose proof Hv as (d & -> & Hc & _ & _)%parse_result_inv.
  destruct (read_captions d _ Hc) as (desc & w & l & Hd & Hw & Ht & Hl & Hg).
  unfold image_description, Spec.description_section.
  rewrite Hd. cbn [mbind ui_bind emit eval app].
  rewrite Hw. cbn [mbind ui_bind emit eval app]. rewrite Ht.
  destruct (seq_of (captions r)) as [|c cs]; [reflexivity|].
  inversion Hl as [|cap c' l' cs' Hcap _]; subst.
  destruct (Hg Ht) as [H1 H2]. unfold first_caption.
  rewrite H1. cbn [mbind py_bind]. rewrite H2.
  cbn [mbind py_bind Py.getitem0 ui_bind emit eval app].
  rewrite (getitem_label Build_Caption "text" cap_text cap_confidence
             ltac:(reflexivity) ltac:(reflexivity) _ _ Hcap).
  rewrite (getitem_confidence Build_Caption "text" cap_text cap_confidence
             ltac:(reflexivity) ltac:(reflexivity) _ _ Hcap).
  cbn [mbind py_bind Py.str]. rewrite percent_float.
  rewrite (build_paragraph_spec _ _ _ _ Hv Hcap).
  reflexivity.
Qed.

Lemma draw_object_card_spec (i : nat) (v : value) (o : DetectedObject) :
  parse_object v = Some o ->
  draw_object_card i v =
    ([markdown (Column (i mod 2))
        (ObjectCard (Str.title (obj_label o))
           (Fmt.percent_of_float 1 (obj_confidence o)))],
     Ok tt).
Proof.
  intros Hv. unfold draw_object_card.
  rewrite (getitem_label Build_DetectedObject "object" obj_label obj_confidence
             ltac:(reflexivity) ltac:(reflexivity) _ _ Hv).
  rewrite (getitem_confidence Build_DetectedObject "object" obj_label obj_confidence
             ltac:(reflexivity) ltac:(reflexivity) _ _ Hv).
  reflexivity.
Qed.

(** The loop draws the cards in the order of the list, object [j] of the
    list in column [(i + j) % 2]. *)
Lemma for_enumerate_cards (l : list value) (os : list DetectedObject) (i : nat) :
  Forall2 (fun v o => parse_object v = Some o) l os ->
  for_enumerate draw_object_card i l =
    (imap (fun j o =>
             markdown (Column ((i + j) mod 2))
               (ObjectCard (Str.title (obj_label o))
                  (Fmt.percent_of_float 1 (obj_confidence o))))
          os,
     Ok tt).
Proof.
  intros H. revert i. induction H as [|v o l os Hv _ IH]; intros i; [reflexivity|].
  cbn [for_enumerate]. rewrite (draw_object_card_spec i v o Hv), (IH (S i)).
  cbn [mbind ui_bind app]. rewrite imap_cons, Nat.add_0_r.
  do 2 f_equal. apply imap_ext. intros j x _. cbn.
  now rewrite Nat.add_succ_r.
Qed.

Lemma add_tag_chip_spec (acc : list (string * string)) (v : value) (t : Tag) :
  parse_tag v = Some t ->
  add_tag_chip acc v = Ok (acc ++ Spec.tag_view [t]).
Proof.
  intros Hv. unfold add_tag_chip.
  rewrite (getitem_label Build_Tag "name" tag_name tag_confidence
             ltac:(reflexivity) ltac:(reflexivity) _ _ Hv).
  rewrite (getitem_confidence Build_Tag "name" tag_name tag_confidence
             ltac:(reflexivity) ltac:(reflexivity) _ _ Hv).
  reflexivity.
Qed.

Lemma for_accumulate_chips (l : list value) (ts : list Tag) acc :
  Forall2 (fun v t => parse_tag v = Some t) l ts ->
  for_accumulate add_tag_chip acc l = Ok (acc ++ Spec.tag_view ts).
Proof.
  intros H. revert acc. induction H as [|v t l ts Hv _ IH]; intros acc.
  - cbn. now rewrite app_nil_r.
  - cbn [for_accumulate]. rewrite (add_tag_chip_spec acc v t Hv).
    cbn [mbind py_bind]. rewrite IH, <- app_assoc. reflexivity.
Qed.

Lemma detected_objects_spec (v : value) (r : AnalysisResult) :
  parse_result v = Some r ->
  detected_objects v = (Spec.objects_section r, Ok tt).
Proof.
  intros (d & -> & _ & Ho & _)%parse_result_inv.
  destruct (get_field_or_none Build_DetectedObject "object" "objects" d _ Ho)
    as (w & l & Hw & Ht & Hl & Hg).
  unfold detected_objects, Spec.objects_section.
  rewrite Hw. cbn [mbind ui_bind emit eval app]. rewrite Ht.
  destruct (seq_of (objects r)) as [|o os] eqn:Hos; [reflexivity|].
  rewrite (Hg Ht). cbn [mbind py_bind Py.iter ui_bind emit eval app].
  rewrite (for_enumerate_cards l (o :: os) 0 Hl).
  reflexivity.
Qed.

Lemma image_tags_spec (v : value) (r : AnalysisResult) :
  parse_result v = Some r ->
  image_tags v = (Spec.tags_section r, Ok tt).
Proof.
  intros (d & -> & _ & _ & Ht)%parse_result_inv.
  destruct (get_field_or_none Build_Tag "name" "tags" d _ Ht)
    as (w & l & Hw & Htr & Hl & Hg).
  unfold image_tags, Spec.tags_section.
  rewrite Hw. cbn [mbind ui_bind emit eval app]. rewrite Htr.
  destruct (seq_of (tags r)) as [|t ts] eqn:Hts; [reflexivity|].
  rewrite (Hg Htr). cbn [mbind py_bind Py.iter].
  rewrite (for_accumulate_chips l (t :: ts) [] Hl).
  reflexivity.
Qed.

Lemma summarize_spec (v : value) (r : AnalysisResult) :
  parse_result v = Some r ->
  summarize v =
    (Spec.description_section r ++ Spec.objects_section r ++ Spec.tags_section r,
     Ok tt).
Proof.
  intros Hv. unfold summarize.
  rewrite (image_description_spec v r Hv), (detected_objects_spec v r Hv),
    (image_tags_spec v r Hv).
  reflexivity.
Qed.

(** ** Reading the summary off the trace *)

Lemma omap_imap_none {A B C} (f : B -> option C) (g : nat -> A -> B) (l : list A) :
  (forall i x, f (g i x) = None) -> omap f (imap g l) = [].
Proof.
  intros H. revert g H. induction l as [|x l IH]; intros g H; [reflexivity|].
  rewrite imap_cons. cbn [omap list_omap]. rewrite H.
  apply IH. intros i y. apply H.
Qed.

Lemma omap_imap_some {A B C} (f : B -> option C) (g : nat -> A -> B) (h : A -> C)
    (l : list A) :
  (forall i x, f (g i x) = Some (h x)) -> omap f (imap g l) = h <$> l.
Proof.
  intros H. revert g H. induction l as [|x l IH]; intros g H; [reflexivity|].
  rewrite imap_cons. cbn [omap list_omap fmap list_fmap]. rewrite H.
  f_equal. apply IH. intros i y. apply H.
Qed.

Lemma bind_imap_nil {A B C} (f : B -> list C) (g : nat -> A -> B) (l : list A) :
  (forall i x, f (g i x) = []) -> imap g l ≫= f = [].
Proof.
  intros H. revert g H. induction l as [|x l IH]; intros g H; [reflexivity|].
  rewrite imap_cons. cbn [mbind list_bind]. rewrite H.
  apply IH. intros i y. apply H.
Qed.

Lemma paragraphs_summary (r : AnalysisResult) :
  paragraphs (Spec.description_section r ++ Spec.objects_section r ++ Spec.tags_section r) =
    match seq_of (captions r) with
    | [] => []
    | c :: _ =>
        [hard_cap (Spec.narrative (cap_text c)
                     (take 5 (obj_label <$> seq_of (objects r)))
                     (take 5 (tag_name <$> seq_of (tags r))))]
    end.
Proof.
  unfold paragraphs, Spec.description_section, Spec.objects_section, Spec.tags_section,
    Spec.object_cards.
  rewrite !omap_app.
  destruct (seq_of (captions r)), (seq_of (objects r)) as [|o os], (seq_of (tags r));
    cbn [omap list_omap paragraph_of app];
    rewrite ?(omap_imap_none paragraph_of) by reflexivity; reflexivity.
Qed.

Lemma caption_cards_summary (r : AnalysisResult) :
  caption_cards (Spec.description_section r ++ Spec.objects_section r ++ Spec.tags_section r) =
    match seq_of (captions r) with
    | [] => []
    | c :: _ => [(cap_text c, Fmt.percent_of_float 1 (cap_confidence c))]
    end.
Proof.
  unfold caption_cards, Spec.description_section, Spec.objects_section, Spec.tags_section,
    Spec.object_cards.
  rewrite !omap_app.
  destruct (seq_of (captions r)), (seq_of (objects r)) as [|o os], (seq_of (tags r));
    cbn [omap list_omap caption_card_of app];
    rewrite ?(omap_imap_none caption_card_of) by reflexivity; reflexivity.
Qed.

Lemma object_listing_summary (r : AnalysisResult) :
  object_listing (Spec.description_section r ++ Spec.objects_section r ++ Spec.tags_section r) =
    Spec.object_view (seq_of (objects r)).
Proof.
  unfold object_listing, Spec.description_section, Spec.objects_section, Spec.tags_section,
    Spec.object_cards.
  rewrite !omap_app.
  destruct (seq_of (captions r)), (seq_of (objects r)) as [|o os], (seq_of (tags r));
    cbn [omap list_omap object_card_of app];
    rewrite ?(omap_imap_some object_card_of _
                (fun o => (Str.title (obj_label o), Fmt.percent_of_float 1 (obj_confidence o))))
      by reflexivity;
    rewrite ?app_nil_r; reflexivity.
Qed.

Lemma tag_listing_summary (r : AnalysisResult) :
  tag_listing (Spec.description_section r ++ Spec.objects_section r ++ Spec.tags_section r) =
    Spec.tag_view (seq_of (tags r)).
Proof.
  unfold tag_listing, Spec.description_section, Spec.objects_section, Spec.tags_section,
    Spec.object_cards.
  rewrite !bind_app.
  destruct (seq_of (captions r)), (seq_of (objects r)) as [|o os], (seq_of (tags r));
    cbn [mbind list_bind tag_chips_of app];
    rewrite ?(bind_imap_nil tag_chips_of) by reflexivity;
    rewrite ?app_nil_r; reflexivity.
Qed.

Lemma first_caption_inv (v cap : value) (r : AnalysisResult) :
  parse_result v = Some r -> first_caption v = Ok cap ->
  exists c rest, seq_of (captions r) = c :: rest /\ parse_caption cap = Some c.
Proof.
  intros (d & -> & Hc & _)%parse_result_inv.
  unfold parse_description in Hc. unfold first_caption, Py.getitem.
  destruct (Py.lookup_item "description" d) as [[| | | | | |dd]|] eqn:Hd;
    try discriminate.
  cbn [mbind py_bind]. unfold parse_field in Hc.
  destruct (Py.lookup_item "captions" dd) as [[| | | | |l|]|] eqn:Hl;
    try discriminate.
  destruct (mapM parse_caption l) as [cs|] eqn:Hcs; [|discriminate].
  injection Hc as <-. apply mapM_Some_1 in Hcs.
  cbn [mbind py_bind Py.getitem0].
  destruct Hcs as [|x c l cs Hx _]; [discriminate|].
  intros [= <-]. exists c, cs. split; [reflexivity | exact Hx].
Qed.

(** * The claims *)

(** C2. With at least one caption, the paragraph is built as the base
    sentence on the caption text, then the clause of the object labels when
    there are any, then the clause of the tag names when there are any, the
    labels and names joined with ", ", the clauses joined with ". " and
    closed by a period; the paragraph shown is that text under the cap of
    100 words.  On the scenario of the specification it is the sentence
    given there. *)
Theorem C2_narrative_construction :
  (forall (v cap : value) (r : AnalysisResult),
     parse_result v = Some r ->
     first_caption v = Ok cap ->
     exists c rest,
       seq_of (captions r) = c :: rest /\
       parse_caption cap = Some c /\
       let labels := take 5 (obj_label <$> seq_of (objects r)) in
       let names := take 5 (tag_name <$> seq_of (tags r)) in
       build_paragraph v cap = Ok (Spec.narrative (cap_text c) labels names) /\
       paragraphs (trace (summarize v)) =
         [hard_cap (Spec.narrative (cap_text c) labels names)] /\
       (length (Str.split (Spec.narrative (cap_text c) labels names)) <= 100 ->
        paragraphs (trace (summarize v)) = [Spec.narrative (cap_text c) labels names])) /\
  paragraphs (trace (summarize Sample.cat_on_chair)) =
    ["The AI thinks this image is about a cat sitting on a chair. It seems to show cat, chair. The scene relates to animal, furniture."].
Proof.
  split; [|vm_compute; reflexivity].
  intros v cap r Hv Hcap.
  destruct (first_caption_inv v cap r Hv Hcap) as (c & rest & Hcs & Hc).
  exists c, rest. split; [exact Hcs|]. split; [exact Hc|]. cbn zeta.
  split; [now apply build_paragraph_spec|].
  rewrite (summarize_spec v r Hv). cbn [trace fst].
  rewrite paragraphs_summary, Hcs.
  split; [reflexivity|].
  intros Hlen. now rewrite hard_cap_short.
Qed.

Lemma C2_narrative_construction_witness :
  build_paragraph Sample.cat_on_chair
    (Sample.entry "text" "a cat sitting on a chair" 0.91) =
  Ok (Spec.narrative "a cat sitting on a chair" ["cat"; "chair"] ["animal"; "furniture"]).
Proof.
  destruct (proj1 C2_narrative_construction Sample.cat_on_chair
              (Sample.entry "text" "a cat sitting on a chair" 0.91)
              (Sample.parsed Sample.cat_on_chair))
    as (c & rest & Hcs & Hc & Hb & _).
  - vm_compute. reflexivity.
  - vm_compute. reflexivity.
  - injection Hc as <-. exact Hb.
Defined.

(** C3. With N >= 1 captions the summary is made from caption 0 alone: its
    text and its confidence are what the caption card shows, and two
    responses that agree on caption 0 (and on objects and tags) get the same
    summary whatever captions follow and whatever their confidences are. *)
Theorem C3_first_caption_only (v v' : value) (r r' : AnalysisResult)
    (c : Caption) (rest rest' : list Caption) :
  parse_result v = Some r ->
  parse_result v' = Some r' ->
  seq_of (captions r) = c :: rest ->
  seq_of (captions r') = c :: rest' ->
  seq_of (objects r) = seq_of (objects r') ->
  seq_of (tags r) = seq_of (tags r') ->
  summarize v = summarize v' /\
  caption_cards (trace (summarize v)) =
    [(cap_text c, Fmt.percent_of_float 1 (cap_confidence c))].
Proof.
  intros Hv Hv' Hc Hc' Ho Ht.
  rewrite (summarize_spec v r Hv), (summarize_spec v' r' Hv'). split.
  - unfold Spec.description_section, Spec.objects_section, Spec.tags_section.
    now rewrite Hc, Hc', Ho, Ht.
  - cbn [trace fst]. now rewrite caption_cards_summary, Hc.
Qed.

Lemma C3_first_caption_only_witness :
  summarize Sample.two_captions = summarize Sample.cat_on_chair /\
  caption_cards (trace (summarize Sample.two_captions)) =
    [("a cat sitting on a chair", "91.0%")].
Proof.
  exact (C3_first_caption_only Sample.two_captions Sample.cat_on_chair
           (Sample.parsed Sample.two_captions) (Sample.parsed Sample.cat_on_chair)
           {| cap_text := "a cat sitting on a chair"; cap_confidence := 0.91 |}
           [{| cap_text := "a dog on a sofa"; cap_confidence := 0.99 |}] []
           eq_refl eq_refl eq_refl eq_refl eq_refl eq_refl).
Defined.

(** C4. The paragraph names the labels of the first five objects and the
    names of the first five tags, in the order of the response, and nothing
    of the entries after them: responses that agree on the caption and on
    the first five objects and tags get the same paragraph. *)
Theorem C4_first_five_in_order (v : value) (r : AnalysisResult)
    (c : Caption) (rest : list Caption) :
  parse_result v = Some r ->
  seq_of (captions r) = c :: rest ->
  paragraphs (trace (summarize v)) =
    [hard_cap (Spec.narrative (cap_text c)
                 (obj_label <$> take 5 (seq_of (objects r)))
                 (tag_name <$> take 5 (seq_of (tags r))))] /\
  length (take 5 (seq_of (objects r))) <= 5 /\
  length (take 5 (seq_of (tags r))) <= 5 /\
  forall (v' : value) (r' : AnalysisResult) (rest' : list Caption),
    parse_result v' = Some r' ->
    seq_of (captions r') = c :: rest' ->
    take 5 (seq_of (objects r')) = take 5 (seq_of (objects r)) ->
    take 5 (seq_of (tags r')) = take 5 (seq_of (tags r)) ->
    paragraphs (trace (summarize v')) = paragraphs (trace (summarize v)).
Proof.
  intros Hv Hc.
  assert (Hp : forall v r rest, parse_result v = Some r ->
               seq_of (captions r) = c :: rest ->
               paragraphs (trace (summarize v)) =
                 [hard_cap (Spec.narrative (cap_text c)
                              (obj_label <$> take 5 (seq_of (objects r)))
                              (tag_name <$> take 5 (seq_of (tags r))))]).
  { clear. intros v r rest Hv Hc. rewrite (summarize_spec v r Hv). cbn [trace fst].
    now rewrite paragraphs_summary, Hc, !fmap_take. }
  split; [now apply (Hp v r rest)|].
  split; [rewrite length_take; lia|].
  split; [rewrite length_take; lia|].
  intros v' r' rest' Hv' Hc' Ho Ht.
  rewrite (Hp v r rest Hv Hc), (Hp v' r' rest' Hv' Hc'). now rewrite Ho, Ht.
Qed.

Lemma C4_first_five_in_order_witness :
  paragraphs (trace (summarize Sample.crowded)) =
    ["The AI thinks this image is about a street. It seems to show car, bus, bike, person, dog. The scene relates to road, city, outdoor, day, traffic."] /\
  paragraphs (trace (summarize Sample.crowded_first_five)) =
    paragraphs (trace (summarize Sample.crowded)).
Proof.
  destruct (C4_first_five_in_order Sample.crowded (Sample.parsed Sample.crowded)
              {| cap_text := "a street"; cap_confidence := 0.6 |} []
              eq_refl eq_refl) as (H1 & _ & _ & H2).
  split.
  - rewrite H1. vm_compute. reflexivity.
  - exact (H2 Sample.crowded_first_five (Sample.parsed Sample.crowded_first_five) []
             eq_refl eq_refl eq_refl eq_refl).
Defined.

(** C6. With no caption the description section is the explicit "No
    description detected" state: the run does not raise, it draws no caption
    card and no paragraph (not even an empty one), and it goes on to the
    objects and the tags. *)
Theorem C6_no_description_state (v : value) (r : AnalysisResult) :
  parse_result v = Some r ->
  seq_of (captions r) = [] ->
  image_description v =
    ([markdown Page SectionOpen;
      markdown Page (Heading 2 "Image Description");
      warning "No description detected";
      markdown Page DivClose],
     Ok tt) /\
  outcome (summarize v) = Ok tt /\
  paragraphs (trace (summarize v)) = [] /\
  caption_cards (trace (summarize v)) = [] /\
  object_listing (trace (summarize v)) = Spec.object_view (seq_of (objects r)) /\
  tag_listing (trace (summarize v)) = Spec.tag_view (seq_of (tags r)).
Proof.
  intros Hv Hc. rewrite (image_description_spec v r Hv), (summarize_spec v r Hv).
  cbn [trace outcome fst snd].
  rewrite paragraphs_summary, caption_cards_summary, object_listing_summary,
    tag_listing_summary.
  unfold Spec.description_section. rewrite Hc. repeat split.
Qed.

Lemma C6_no_description_state_witness :
  image_description Sample.no_caption =
    ([markdown Page SectionOpen;
      markdown Page (Heading 2 "Image Description");
      warning "No description detected";
      markdown Page DivClose],
     Ok tt) /\
  object_listing (trace (summarize Sample.no_caption)) = [("Cat", "95.0%")].
Proof.
  destruct (C6_no_description_state Sample.no_caption (Sample.parsed Sample.no_caption)
              eq_refl eq_refl) as (H1 & _ & _ & _ & H2 & _).
  split; [exact H1|]. rewrite H2. vm_compute. reflexivity.
Defined.

(** ** Missing top-level fields *)

Lemma lookup_without_key (k k' : string) (d : list (string * value)) :
  Py.lookup_item k' (without_key k d) =
    if String.eqb k' k then None else Py.lookup_item k' d.
Proof.
  induction d as [|[k0 x] d IH]; cbn [without_key Py.lookup_item].
  - now destruct (String.eqb k' k).
  - destruct (String.eqb_spec k k0) as [<-|Hk0].
    + rewrite IH. now destruct (String.eqb k' k).
    + cbn [Py.lookup_item]. rewrite IH.
      destruct (String.eqb_spec k' k) as [->|Hk']; [|reflexivity].
      apply String.eqb_neq in Hk0. now rewrite Hk0.
Qed.

(** The summary of a response depends on its three sequences only. *)
Lemma summarize_sequences (v v' : value) (r r' : AnalysisResult) :
  parse_result v = Some r -> parse_result v' = Some r' ->
  seq_of (captions r) = seq_of (captions r') ->
  seq_of (objects r) = seq_of (objects r') ->
  seq_of (tags r) = seq_of (tags r') ->
  summarize v = summarize v'.
Proof.
  intros Hv Hv' Hc Ho Ht.
  rewrite (summarize_spec v r Hv), (summarize_spec v' r' Hv').
  unfold Spec.description_section, Spec.objects_section, Spec.tags_section.
  now rewrite Hc, Ho, Ht.
Qed.

Lemma parse_without_key (k : string) (d : list (string * value)) (r : AnalysisResult) :
  parse_result (VDict d) = Some r -> k ∈ top_level ->
  parse_result (VDict (without_key k d)) =
    Some {| captions := if String.eqb k "description" then None else captions r;
            objects := if String.eqb k "objects" then None else objects r;
            tags := if String.eqb k "tags" then None else tags r |}.
Proof.
  intros (d0 & [= <-] & Hc & Ho & Ht)%parse_result_inv Hk.
  unfold parse_result, parse_description, parse_field in *.
  rewrite !lookup_without_key.
  unfold top_level in Hk. rewrite !elem_of_cons, elem_of_nil in Hk.
  destruct Hk as [->|[->|[->|[]]]]; cbn [String.eqb Ascii.eqb Bool.eqb];
    cbn match; rewrite ?Hc, ?Ho, ?Ht; reflexivity.
Qed.

Lemma parse_set_empty (k : string) (d : list (string * value)) (r : AnalysisResult) :
  parse_result (VDict d) = Some r -> k ∈ top_level ->
  parse_result (VDict (set_empty k d)) =
    Some {| captions := if String.eqb k "description" then Some [] else captions r;
            objects := if String.eqb k "objects" then Some [] else objects r;
            tags := if String.eqb k "tags" then Some [] else tags r |}.
Proof.
  intros (d0 & [= <-] & Hc & Ho & Ht)%parse_result_inv Hk.
  unfold top_level in Hk. rewrite !elem_of_cons, elem_of_nil in Hk.
  unfold set_empty, parse_result, parse_description, parse_field in *.
  cbn [Py.lookup_item]. rewrite !lookup_without_key.
  destruct Hk as [->|[->|[->|[]]]]; cbn [String.eqb Ascii.eqb Bool.eqb];
    cbn match; rewrite ?Hc, ?Ho, ?Ht; reflexivity.
Qed.

Lemma empty_state_drawn (r : AnalysisResult) (k : string) :
  k ∈ top_level ->
  (k = "description" -> seq_of (captions r) = []) ->
  (k = "objects" -> seq_of (objects r) = []) ->
  (k = "tags" -> seq_of (tags r) = []) ->
  empty_state k ∈
    Spec.description_section r ++ Spec.objects_section r ++ Spec.tags_section r.
Proof.
  unfold top_level. rewrite !elem_of_cons, elem_of_nil.
  unfold Spec.description_section, Spec.objects_section, Spec.tags_section.
  intros [->|[->|[->|[]]]] Hc Ho Ht; rewrite !elem_of_app.
  - left. rewrite (Hc eq_refl). right. left. apply list_elem_of_here.
  - right. left. rewrite (Ho eq_refl). right. left. apply list_elem_of_here.
  - right. right. rewrite (Ht eq_refl). right. left. apply list_elem_of_here.
Qed.

(** Dropping top-level keys and storing empty sequences under them give
    responses that parse to the same three sequences, empty under each of
    the keys. *)
Lemma absent_or_empty (ks : list string) (d : list (string * value)) (r : AnalysisResult) :
  parse_result (VDict d) = Some r ->
  Forall (fun k => k ∈ top_level) ks ->
  exists ra re,
    parse_result (VDict (without_keys ks d)) = Some ra /\
    parse_result (VDict (with_empty ks d)) = Some re /\
    seq_of (captions ra) = seq_of (captions re) /\
    seq_of (objects ra) = seq_of (objects re) /\
    seq_of (tags ra) = seq_of (tags re) /\
    ("description" ∈ ks -> seq_of (captions ra) = []) /\
    ("objects" ∈ ks -> seq_of (objects ra) = []) /\
    ("tags" ∈ ks -> seq_of (tags ra) = []).
Proof.
  intros Hr Hks. induction Hks as [|k ks Hk _ IH].
  - exists r, r. rewrite !elem_of_nil. tauto.
  - destruct IH as (ra & re & Ha & He & Hc & Ho & Ht & Ec & Eo & Et).
    eexists _, _.
    split; [exact (parse_without_key k _ ra Ha Hk)|].
    split; [exact (parse_set_empty k _ re He Hk)|].
    cbn [captions objects tags]. rewrite !elem_of_cons.
    unfold top_level in Hk. rewrite !elem_of_cons, elem_of_nil in Hk.
    destruct Hk as [->|[->|[->|[]]]]; cbn [String.eqb Ascii.eqb Bool.eqb]; cbn match;
      repeat split; try assumption; try reflexivity;
      intros [[=]|H]; auto.
Qed.

(** C10. The summarizer runs to the end on a response that lacks any of
    "description", "objects" and "tags": the summary is the one of the
    response with an empty sequence under each missing key, so each missing
    field shows its empty state ("No description detected", "No objects
    detected", "No tags detected"), and nothing is raised, whichever of the
    three are missing. *)
Theorem C10_absent_fields_read_as_empty (d : list (string * value))
    (r : AnalysisResult) (ks : list string) :
  parse_result (VDict d) = Some r ->
  Forall (fun k => k ∈ top_level) ks ->
  summarize (VDict (without_keys ks d)) = summarize (VDict (with_empty ks d)) /\
  outcome (summarize (VDict (without_keys ks d))) = Ok tt /\
  Forall (fun k => empty_state k ∈ trace (summarize (VDict (without_keys ks d)))) ks.
Proof.
  intros Hr Hks.
  destruct (absent_or_empty ks d r Hr Hks)
    as (ra & re & Ha & He & Hc & Ho & Ht & Ec & Eo & Et).
  split; [exact (summarize_sequences _ _ ra re Ha He Hc Ho Ht)|].
  rewrite (summarize_spec _ ra Ha). cbn [outcome trace fst snd].
  split; [reflexivity|].
  apply Forall_forall. intros k Hk.
  apply empty_state_drawn.
  - exact (proj1 (Forall_forall _ _) Hks k Hk).
  - intros ->. auto.
  - intros ->. auto.
  - intros ->. auto.
Qed.

Lemma C10_absent_fields_read_as_empty_witness :
  summarize (VDict []) =
    ([markdown Page SectionOpen; markdown Page (Heading 2 "Image Description");
      warning "No description detected"; markdown Page DivClose;
      markdown Page SectionOpen; markdown Page (Heading 2 "Detected Objects");
      warning "No objects detected"; markdown Page DivClose;
      markdown Page SectionOpen; markdown Page (Heading 2 "Image Tags");
      warning "No tags detected"; markdown Page DivClose],
     Ok tt) /\
  summarize (VDict [("requestId", VStr "0f3a")]) =
    summarize (VDict [("tags", VList []); ("objects", VList []);
                      ("description", VDict [("captions", VList [])]);
                      ("requestId", VStr "0f3a")]).
Proof.
  destruct (C10_absent_fields_read_as_empty
              [("objects", VList [Sample.entry "object" "cat" 0.95]);
               ("requestId", VStr "0f3a")]
              {| captions := None;
                 objects := Some [{| obj_label := "cat"; obj_confidence := 0.95 |}];
                 tags := None |}
              ["tags"; "objects"; "description"] eq_refl)
    as (H1 & _ & _).
  - unfold top_level. repeat constructor.
  - split; [vm_compute; reflexivity | exact H1].
Defined.

(** ** The pipeline *)

Ltac run_ui :=
  cbn [mbind ui_bind py_bind mret ui_ret emit eval stop trace outcome fst snd app].

Section Pipeline.

Context {image : Type}.
Context (Image_open : bytes -> py image) (convert_RGB : image -> py image).
Context (save_JPEG : image -> py bytes) (st_image : image -> py unit).
Context (requests_post : request -> py response).

Local Abbreviation Decode := (decode image Image_open convert_RGB).
Local Abbreviation Normalize := (normalize image Image_open convert_RGB save_JPEG).
Local Abbreviation Analyze :=
  (analyze image Image_open convert_RGB save_JPEG requests_post).
Local Abbreviation Script :=
  (script image Image_open convert_RGB save_JPEG st_image requests_post).

(** The normaliser is the three calls in a row, whatever the upload was
    encoded as. *)
Lemma normalize_steps (raw : bytes) (opened rgb : image) (jpeg : bytes) :
  Image_open raw = Ok opened -> convert_RGB opened = Ok rgb ->
  save_JPEG rgb = Ok jpeg ->
  Normalize raw = Ok jpeg.
Proof.
  intros Ho Hc Hs. unfold normalize, decode.
  rewrite Ho. cbn [mbind py_bind]. rewrite Hc. exact Hs.
Qed.

Lemma analyze_undecodable (raw : bytes) (e : exn) (endpoint key : string) :
  Decode raw = Raise e ->
  Analyze endpoint key raw = ([spinner "Analyzing image..."], Raise e).
Proof.
  intros Hd. unfold analyze, normalize. rewrite Hd. reflexivity.
Qed.

(** C8. When the upload cannot be decoded ([Image.open(...).convert("RGB")]
    raises), the normaliser raises the same exception and returns no
    buffer; nothing catches it: the click handler ends with it right after
    the spinner, no request is sent and none of the result sections is
    drawn, and a run of the script on that upload never ends normally once
    the analysis is asked for. *)
Theorem C8_undecodable_upload_aborts (raw : bytes) (e : exn) :
  Decode raw = Raise e ->
  Normalize raw = Raise e /\
  (forall endpoint key,
     Analyze endpoint key raw = ([spinner "Analyzing image..."], Raise e)) /\
  (forall i, uploaded_file i = Some raw ->
     Forall (fun ev => is_post ev = false) (trace (Script i)) /\
     Forall (fun ev => is_result_output ev = false) (trace (Script i)) /\
     (analyze_clicked i = true -> forall x, outcome (Script i) <> Ok x) /\
     (Image_open raw = Raise e ->
      unset (AZURE_VISION_ENDPOINT i) || unset (AZURE_VISION_API_KEY i) = false ->
      Script i =
        ([set_page_config; markdown Page Style; markdown Page Header;
          markdown Page (Heading 2 "Upload Image"); file_uploader],
         Raise e))).
Proof.
  intros Hd.
  split; [unfold normalize; now rewrite Hd|].
  split; [intros; now apply analyze_undecodable|].
  intros i Hi. unfold script. rewrite Hi.
  destruct (unset (AZURE_VISION_ENDPOINT i) || unset (AZURE_VISION_API_KEY i)).
  { run_ui. repeat split; try (repeat constructor); try discriminate. }
  run_ui. destruct (Image_open raw) as [img|e'|] eqn:Ho; run_ui.
  - destruct (st_image img) as [[]| |]; run_ui;
      try (repeat split; try (repeat constructor); discriminate).
    destruct (analyze_clicked i).
    + rewrite (analyze_undecodable raw e _ _ Hd). run_ui.
      repeat split; try (repeat constructor); discriminate.
    + run_ui. repeat split; try (repeat constructor); discriminate.
  - repeat split; try (repeat constructor); try discriminate.
    intros [= ->] _. reflexivity.
  - repeat split; try (repeat constructor); discriminate.
Qed.

(** C9. When the service answers with a status other than 200, the click
    handler draws the body of the response, as it is, with [st.error] and
    stops the run: after the request nothing else is drawn, no part of the
    summary and no raw response. *)
Theorem C9_non_200_aborts (raw image_bytes : bytes) (endpoint key : string)
    (resp : response) :
  Normalize raw = Ok image_bytes ->
  requests_post (analyze_request endpoint key image_bytes) = Ok resp ->
  status_code resp <> 200%Z ->
  Analyze endpoint key raw =
    ([spinner "Analyzing image...";
      post (analyze_request endpoint key image_bytes);
      error (text resp)],
     Raise StopException) /\
  (forall i img,
     AZURE_VISION_ENDPOINT i = Some endpoint ->
     AZURE_VISION_API_KEY i = Some key ->
     unset (Some endpoint) || unset (Some key) = false ->
     uploaded_file i = Some raw ->
     analyze_clicked i = true ->
     Image_open raw = Ok img ->
     st_image img = Ok tt ->
     Script i =
       ([set_page_config; markdown Page Style; markdown Page Header;
         markdown Page (Heading 2 "Upload Image"); file_uploader;
         markdown Page ImageBoxOpen; image_drawn; markdown Page DivClose;
         markdown Page LineBreak; button;
         spinner "Analyzing image...";
         post (analyze_request endpoint key image_bytes);
         error (text resp)],
        Raise StopException) /\
     Forall (fun ev => is_result_output ev = false) (trace (Script i))).
Proof.
  intros Hn Hp Hs.
  assert (Ha : Analyze endpoint key raw =
                 ([spinner "Analyzing image...";
                   post (analyze_request endpoint key image_bytes);
                   error (text resp)],
                  Raise StopException)).
  { unfold analyze. rewrite Hn. run_ui. rewrite Hp. run_ui.
    destruct (Z.eqb_spec (status_code resp) 200) as [Heq|_]; [contradiction|].
    reflexivity. }
  split; [exact Ha|].
  intros i img He Hk Hset Hu Hc Ho Hi.
  assert (Hscript : Script i =
       ([set_page_config; markdown Page Style; markdown Page Header;
         markdown Page (Heading 2 "Upload Image"); file_uploader;
         markdown Page ImageBoxOpen; image_drawn; markdown Page DivClose;
         markdown Page LineBreak; button;
         spinner "Analyzing image...";
         post (analyze_request endpoint key image_bytes);
         error (text resp)],
        Raise StopException)).
  { unfold script. rewrite He, Hk, Hset, Hu, Hc. run_ui.
    rewrite Ho. run_ui. rewrite Hi. run_ui.
    change (default "" (Some endpoint)) with endpoint.
    change (default "" (Some key)) with key.
    rewrite Ha. reflexivity. }
  split; [exact Hscript|].
  rewrite Hscript. cbn [trace fst]. repeat constructor.
Qed.

End Pipeline.

Lemma C8_undecodable_upload_aborts_witness :
  normalize Toy.image Toy.Image_open Toy.convert_RGB Toy.save_JPEG [] =
    Raise (LibraryError "UnidentifiedImageError") /\
  script Toy.image Toy.Image_open Toy.convert_RGB Toy.save_JPEG Toy.st_image
    Toy.requests_post (Toy.click []) =
    ([set_page_config; markdown Page Style; markdown Page Header;
      markdown Page (Heading 2 "Upload Image"); file_uploader],
     Raise (LibraryError "UnidentifiedImageError")).
Proof.
  destruct (C8_undecodable_upload_aborts Toy.Image_open Toy.convert_RGB Toy.save_JPEG
              Toy.st_image Toy.requests_post [] (LibraryError "UnidentifiedImageError")
              eq_refl) as (H1 & _ & H2).
  split; [exact H1|].
  destruct (H2 (Toy.click []) eq_refl) as (_ & _ & _ & H3).
  exact (H3 eq_refl eq_refl).
Defined.

Lemma C9_non_200_aborts_witness :
  analyze Toy.image Toy.Image_open Toy.convert_RGB Toy.save_JPEG Toy.requests_post
    "https://vision.example/" "k" [Byte.xff; Byte.xd8] =
    ([spinner "Analyzing image...";
      post (analyze_request "https://vision.example/" "k" [Byte.xff; Byte.xd8]);
      error "{'error': {'code': '401', 'message': 'Access denied'}}"],
     Raise StopException).
Proof.
  refine (proj1 (C9_non_200_aborts Toy.Image_open Toy.convert_RGB Toy.save_JPEG
                   Toy.st_image Toy.requests_post [Byte.xff; Byte.xd8] [Byte.xff; Byte.xd8]
                   "https://vision.example/" "k" _ eq_refl eq_refl _)).
  vm_compute. discriminate.
Defined.

(** * The rest of the script *)

(** ** The request *)

Lemma rstrip_by_drop_last (p : ascii -> bool) (s : string) (c : ascii) :
  p c = true -> Str.rstrip_by p (s +:+ String c "") = Str.rstrip_by p s.
Proof.
  intros Hc. induction s as [|a s IH].
  - rewrite append_nil. simpl. now rewrite Hc.
  - rewrite append_cons. cbn [Str.rstrip_by]. now rewrite IH.
Qed.

Lemma rstrip_by_no_such_end (p : ascii -> bool) (s : string) (c : ascii) :
  p c = true -> Str.endswith (Str.rstrip_by p s) (String c "") = false.
Proof.
  intros Hc. induction s as [|a s IH]; [reflexivity|].
  cbn [Str.rstrip_by]. destruct (Str.rstrip_by p s) as [|b r] eqn:Hr.
  - destruct (p a) eqn:Ha; [reflexivity|].
    cbn [Str.endswith]. destruct (String.eqb_spec (String a "") (String c "")) as [[= ->]|_].
    + congruence.
    + reflexivity.
  - cbn [Str.endswith].
    destruct (String.eqb_spec (String a (String b r)) (String c "")) as [[=]|_].
    exact IH.
Qed.

Lemma slashes_snoc (n : nat) : slashes (S n) = slashes n +:+ "/".
Proof.
  induction n as [|n IH]; [reflexivity|].
  change (slashes (S (S n))) with (String "/" (slashes (S n))).
  rewrite IH at 1. reflexivity.
Qed.

(** ** The cap of 100 words, again *)

Lemma split_hard_cap_length (p : string) :
  length (Str.split (hard_cap p)) = Nat.min 100 (length (Str.split p)).
Proof.
  destruct (Nat.le_gt_cases (length (Str.split p)) 100) as [H|H].
  - rewrite (hard_cap_short p H). lia.
  - destruct (split_hard_cap_long p H) as (w & _ & ->).
    rewrite length_app, length_take_le by lia. cbn [length]. lia.
Qed.

(** ** Title case *)

Lemma upper_upper (c : ascii) : Str.upper (Str.upper c) = Str.upper c.
Proof. destruct c as [[] [] [] [] [] [] [] []]; reflexivity. Qed.

Lemma lower_lower (c : ascii) : Str.lower (Str.lower c) = Str.lower c.
Proof. destruct c as [[] [] [] [] [] [] [] []]; reflexivity. Qed.

Lemma lower_upper (c : ascii) : Str.lower (Str.upper c) = Str.lower c.
Proof. destruct c as [[] [] [] [] [] [] [] []]; reflexivity. Qed.

Lemma iscased_upper (c : ascii) : Str.iscased (Str.upper c) = Str.iscased c.
Proof. destruct c as [[] [] [] [] [] [] [] []]; reflexivity. Qed.

Lemma iscased_lower (c : ascii) : Str.iscased (Str.lower c) = Str.iscased c.
Proof. destruct c as [[] [] [] [] [] [] [] []]; reflexivity. Qed.

Lemma title_from_length (b : bool) (s : string) :
  String.length (Str.title_from b s) = String.length s.
Proof.
  revert b. induction s as [|c s IH]; intros b; [reflexivity|].
  cbn [Str.title_from String.length]. now rewrite IH.
Qed.

Lemma title_from_twice (b : bool) (s : string) :
  Str.title_from b (Str.title_from b s) = Str.title_from b s.
Proof.
  revert b. induction s as [|c s IH]; intros b; [reflexivity|].
  cbn [Str.title_from].
  destruct b; rewrite ?lower_lower, ?upper_upper, ?iscased_lower, ?iscased_upper, IH;
    reflexivity.
Qed.

(** ** The shape of a percentage *)

Lemma length_append_str (a b : string) :
  String.length (a +:+ b) = String.length a + String.length b.
Proof.
  induction a as [|x a IH]; [reflexivity|].
  rewrite append_cons. cbn [String.length]. now rewrite IH.
Qed.

Lemma length_zeros (n : nat) : String.length (Fmt.zeros n) = n.
Proof. induction n as [|n IH]; [reflexivity|]. cbn. now rewrite IH. Qed.

Lemma all_digits_app (a b : string) :
  all_digits (a +:+ b) = all_digits a && all_digits b.
Proof.
  induction a as [|x a IH]; [reflexivity|].
  rewrite append_cons. cbn [all_digits]. rewrite IH. now rewrite andb_assoc.
Qed.

Lemma all_digits_zeros (n : nat) : all_digits (Fmt.zeros n) = true.
Proof. induction n as [|n IH]; [reflexivity|]. exact IH. Qed.

Lemma all_digits_uint (d : Decimal.uint) :
  all_digits (NilEmpty.string_of_uint d) = true.
Proof. induction d; cbn [NilEmpty.string_of_uint all_digits]; trivial. Qed.

Lemma all_digits_number (n : N) :
  all_digits (NilZero.string_of_uint (N.to_uint n)) = true.
Proof.
  unfold NilZero.string_of_uint.
  destruct (N.to_uint n); try apply all_digits_uint. reflexivity.
Qed.

Lemma number_not_empty (n : N) : NilZero.string_of_uint (N.to_uint n) <> "".
Proof.
  unfold NilZero.string_of_uint. destruct (N.to_uint n); discriminate.
Qed.

Lemma length_substring (n m : nat) (s : string) :
  n + m <= String.length s -> String.length (substring n m s) = m.
Proof.
  revert n m. induction s as [|c s IH]; intros n m H; cbn [String.length] in H.
  - assert (n = 0) by lia. assert (m = 0) by lia. subst. reflexivity.
  - destruct n as [|n]; cbn [substring].
    + destruct m as [|m]; [reflexivity|]. cbn [String.length].
      rewrite (IH 0 m) by lia. reflexivity.
    + apply IH. lia.
Qed.

Lemma all_digits_substring (n m : nat) (s : string) :
  all_digits s = true -> all_digits (substring n m s) = true.
Proof.
  revert n m. induction s as [|c s IH]; intros n m H.
  - destruct n, m; reflexivity.
  - cbn [all_digits] in H. apply andb_prop in H as [Hc Hs].
    destruct n as [|n]; cbn [substring].
    + destruct m as [|m]; [reflexivity|]. cbn [all_digits]. rewrite Hc.
      now apply IH.
    + now apply IH.
Qed.

(** The text of [point]: digits, a point, and [digits] more digits; or, with
    no decimals asked for, digits alone. *)
Lemma point_shape (digits : nat) (n : Z) :
  match digits with
  | O => all_digits (Fmt.point 0 n) = true /\ Fmt.point 0 n <> ""
  | S _ =>
      exists ip fp,
        Fmt.point digits n = ip +:+ "." +:+ fp /\
        all_digits ip = true /\ ip <> "" /\
        all_digits fp = true /\ String.length fp = digits
  end.
Proof.
  unfold Fmt.point.
  set (s0 := NilZero.string_of_uint (N.to_uint (Z.to_N n))).
  assert (Hd0 : all_digits s0 = true) by apply all_digits_number.
  assert (Hn0 : s0 <> "") by apply number_not_empty.
  set (s := Fmt.zeros (S digits - String.length s0) +:+ s0).
  assert (Hd : all_digits s = true).
  { unfold s. now rewrite all_digits_app, all_digits_zeros, Hd0. }
  assert (Hlen : S digits <= String.length s).
  { unfold s. rewrite length_append_str, length_zeros. lia. }
  destruct digits as [|d].
  - split; [exact Hd|]. unfold s. cbn [Nat.sub].
    destruct s0 as [|c s0']; [congruence|].
    destruct (1 - String.length (String c s0')); discriminate.
  - eexists _, _. split; [reflexivity|].
    split; [now apply all_digits_substring|].
    split.
    + intros Hip.
      assert (H : String.length
                    (substring 0 (String.length s - S d) s) = String.length s - S d)
        by (apply length_substring; lia).
      rewrite Hip in H. cbn [String.length] in H. lia.
    + split; [now apply all_digits_substring|].
      apply length_substring. lia.
Qed.

Lemma fixed_shape (digits : nat) (x : float) :
  is_number x = true ->
  exists negative n, Fmt.fixed digits x = Fmt.sign negative +:+ Fmt.point digits n.
Proof.
  unfold is_number, Fmt.fixed.
  destruct (Prim2SF x) as [s|s| |s m e]; try discriminate; intros _; eauto.
Qed.

(** X4. A confidence that is a number is drawn on a caption or object card
    as an optional minus sign, at least one digit, a point, exactly one
    digit and "%"; on a tag chip as an optional minus sign, at least one
    digit and "%", with no point. *)
Theorem percent_shape (c : float) :
  is_number (c * 100) = true ->
  (exists negative ip f,
     Fmt.percent 1 (VFloat c) =
       Ok (Fmt.sign negative +:+ ip +:+ "." +:+ String f "%") /\
     all_digits ip = true /\ ip <> "" /\ isdigit f = true) /\
  (exists negative ip,
     Fmt.percent 0 (VFloat c) = Ok (Fmt.sign negative +:+ ip +:+ "%") /\
     all_digits ip = true /\ ip <> "").
Proof.
  intros Hc. rewrite !percent_float. unfold Fmt.percent_of_float. split.
  - destruct (fixed_shape 1 _ Hc) as (neg & n & ->).
    destruct (point_shape 1 n) as (ip & fp & -> & Hip & Hne & Hfp & Hlen).
    destruct fp as [|f [|g fp]]; try discriminate.
    exists neg, ip, f. rewrite !append_assoc_str.
    cbn [all_digits] in Hfp. rewrite andb_true_r in Hfp. auto.
  - destruct (fixed_shape 0 _ Hc) as (neg & n & ->).
    destruct (point_shape 0 n) as [Hd Hne].
    exists neg, (Fmt.point 0 n). rewrite !append_assoc_str. auto.
Qed.

Lemma percent_shape_witness :
  exists negative ip f,
    Fmt.percent 1 (VFloat 0.873) =
      Ok (Fmt.sign negative +:+ ip +:+ "." +:+ String f "%") /\
    all_digits ip = true /\ ip <> "" /\ isdigit f = true.
Proof.
  refine (proj1 (percent_shape 0.873 _)). vm_compute. reflexivity.
Defined.

(** ** The two columns *)

Lemma mod_2_alternates (i : nat) :
  (i mod 2 = 0 /\ S i mod 2 = 1) \/ (i mod 2 = 1 /\ S i mod 2 = 0).
Proof.
  induction i as [|i IH]; [left; split; reflexivity|].
  replace (S (S i)) with (i + 1 * 2) by lia. rewrite Nat.Div0.mod_add. lia.
Qed.

Lemma succ_mod_2 (i k : nat) :
  k < 2 -> Nat.eqb (S i mod 2) k = negb (Nat.eqb (i mod 2) k).
Proof.
  intros Hk. destruct (mod_2_alternates i) as [[-> ->]|[-> ->]];
    destruct k as [|[|k]]; try reflexivity; lia.
Qed.

Lemma omap_cons_eq {A B} (f : A -> option B) (x : A) (l : list A) :
  omap f (x :: l) = match f x with Some y => y :: omap f l | None => omap f l end.
Proof. reflexivity. Qed.

Lemma column_cards_loop (k : nat) (os : list DetectedObject) (i : nat) :
  k < 2 ->
  column_cards k
    (imap (fun j o =>
             markdown (Column ((i + j) mod 2))
               (ObjectCard (Str.title (obj_label o))
                  (Fmt.percent_of_float 1 (obj_confidence o))))
          os) =
  Spec.object_view (every_other (Nat.eqb (i mod 2) k) os).
Proof.
  intros Hk. revert i. induction os as [|o os IH]; intros i; [reflexivity|].
  rewrite imap_cons. unfold column_cards in *. rewrite omap_cons_eq.
  cbn [card_in_column every_other]. rewrite Nat.add_0_r.
  rewrite (imap_ext _ (fun j o =>
             markdown (Column ((S i + j) mod 2))
               (ObjectCard (Str.title (obj_label o))
                  (Fmt.percent_of_float 1 (obj_confidence o)))))
    by (intros j x _; cbn; now rewrite Nat.add_succ_r).
  rewrite (IH (S i)), (succ_mod_2 i k Hk).
  destruct (Nat.eqb (i mod 2) k); reflexivity.
Qed.

Lemma length_every_other {A} (l : list A) :
  length (every_other true l) + length (every_other false l) = length l /\
  length (every_other false l) <= length (every_other true l) <=
    S (length (every_other false l)).
Proof.
  induction l as [|x l IH]; cbn [every_other length]; lia.
Qed.

(** X5. The object cards are dealt to the two columns in turn: the left
    column holds the cards of the objects at even positions, the right one
    those at odd positions, each in the order of the response, so the left
    column has as many cards as the right one, or one more. *)
Theorem object_cards_alternate_columns (v : value) (r : AnalysisResult) :
  parse_result v = Some r ->
  column_cards 0 (trace (summarize v)) =
    Spec.object_view (every_other true (seq_of (objects r))) /\
  column_cards 1 (trace (summarize v)) =
    Spec.object_view (every_other false (seq_of (objects r))) /\
  length (column_cards 1 (trace (summarize v))) <=
    length (column_cards 0 (trace (summarize v))) <=
    S (length (column_cards 1 (trace (summarize v)))).
Proof.
  intros Hv.
  assert (H : forall k, k < 2 ->
            column_cards k (trace (summarize v)) =
              Spec.object_view (every_other (Nat.eqb 0 k) (seq_of (objects r)))).
  { intros k Hk. rewrite (summarize_spec v r Hv). cbn [trace fst].
    unfold column_cards, Spec.description_section, Spec.objects_section,
      Spec.tags_section, Spec.object_cards.
    rewrite !omap_app.
    pose proof (column_cards_loop k (seq_of (objects r)) 0 Hk) as Hloop.
    unfold column_cards in Hloop. cbn [Nat.add] in Hloop.
    destruct (seq_of (captions r)), (seq_of (objects r)) as [|o os], (seq_of (tags r));
      cbn [omap list_omap card_in_column app];
      rewrite ?Hloop, ?app_nil_r; reflexivity. }
  rewrite (H 0), (H 1) by lia. cbn [Nat.eqb].
  split; [reflexivity|]. split; [reflexivity|].
  unfold Spec.object_view. rewrite !length_map.
  apply length_every_other.
Qed.

Lemma object_cards_alternate_columns_witness :
  column_cards 0 (trace (summarize Sample.crowded)) =
    [("Car", "50.0%"); ("Bike", "50.0%"); ("Dog", "50.0%"); ("Sign", "50.0%")] /\
  column_cards 1 (trace (summarize Sample.crowded)) =
    [("Bus", "50.0%"); ("Person", "50.0%"); ("Tree", "50.0%")].
Proof.
  destruct (object_cards_alternate_columns Sample.crowded (Sample.parsed Sample.crowded)
              eq_refl) as (H0 & H1 & _).
  split.
  - rewrite H0. vm_compute. reflexivity.
  - rewrite H1. vm_compute. reflexivity.
Defined.

(** ** What the summarizer draws with, on any value *)

Section TraceAll.

Context (P : event -> bool).

Lemma all_emit (e : event) : P e = true -> Forall (fun e => P e = true) (trace (emit e)).
Proof. intros H. repeat constructor. exact H. Qed.

Lemma all_eval {A} (m : py A) : Forall (fun e => P e = true) (trace (eval m)).
Proof. constructor. Qed.

Lemma all_bind {A B} (m : ui A) (k : A -> ui B) :
  Forall (fun e => P e = true) (trace m) ->
  (forall a, Forall (fun e => P e = true) (trace (k a))) ->
  Forall (fun e => P e = true) (trace (m ≫= k)).
Proof.
  intros Hm Hk. destruct m as [t [a| |]]; cbn [mbind ui_bind trace fst] in *; try exact Hm.
  specialize (Hk a). destruct (k a) as [t' o]. cbn [trace fst] in *.
  apply Forall_app. split; assumption.
Qed.

Lemma all_for_enumerate {A} (body : nat -> A -> ui unit) (i : nat) (xs : list A) :
  (forall j x, Forall (fun e => P e = true) (trace (body j x))) ->
  Forall (fun e => P e = true) (trace (for_enumerate body i xs)).
Proof.
  intros Hb. revert i. induction xs as [|x xs IH]; intros i; [constructor|].
  cbn [for_enumerate]. apply all_bind; [apply Hb | intros _; apply IH].
Qed.

End TraceAll.

Ltac walk_trace :=
  repeat first
    [ apply all_emit; reflexivity
    | apply all_eval
    | apply all_for_enumerate; intros ? ?
    | apply all_bind; [|intros ?]
    | match goal with |- context [if ?b then _ else _] => destruct b end ].

(** ** Each section reads its own keys *)

Lemma detected_objects_lookup (d d' : list (string * value)) :
  Py.lookup_item "objects" d = Py.lookup_item "objects" d' ->
  detected_objects (VDict d) = detected_objects (VDict d').
Proof.
  intros H. unfold detected_objects, Py.get, Py.getitem. now rewrite H.
Qed.

Lemma image_tags_lookup (d d' : list (string * value)) :
  Py.lookup_item "tags" d = Py.lookup_item "tags" d' ->
  image_tags (VDict d) = image_tags (VDict d').
Proof.
  intros H. unfold image_tags, Py.get, Py.getitem. now rewrite H.
Qed.

Lemma image_description_lookup (d d' : list (string * value)) :
  Py.lookup_item "description" d = Py.lookup_item "description" d' ->
  Py.lookup_item "objects" d = Py.lookup_item "objects" d' ->
  Py.lookup_item "tags" d = Py.lookup_item "tags" d' ->
  image_description (VDict d) = image_description (VDict d').
Proof.
  intros Hd Ho Ht.
  unfold image_description, first_caption, build_paragraph, Py.get, Py.getitem.
  now rewrite Hd, Ho, Ht.
Qed.

(** The description section up to the paragraph: the caption card is drawn
    before the paragraph is built. *)
Lemma image_description_caption (d : list (string * value)) caps (c : Caption)
    (rest : list Caption) :
  parse_description d = Some caps -> seq_of caps = c :: rest ->
  exists cap,
    parse_caption cap = Some c /\
    image_description (VDict d) =
      match build_paragraph (VDict d) cap with
      | Ok p =>
          ([markdown Page SectionOpen; markdown Page (Heading 2 "Image Description");
            markdown Page (CaptionCard (cap_text c)
                             (Fmt.percent_of_float 1 (cap_confidence c)));
            markdown Page (Heading 4 "Summary (within 100 words)");
            markdown Page (SummaryParagraph (hard_cap p));
            markdown Page DivClose],
           Ok tt)
      | Raise e =>
          ([markdown Page SectionOpen; markdown Page (Heading 2 "Image Description");
            markdown Page (CaptionCard (cap_text c)
                             (Fmt.percent_of_float 1 (cap_confidence c)))],
           Raise e)
      | Unmodelled =>
          ([markdown Page SectionOpen; markdown Page (Heading 2 "Image Description");
            markdown Page (CaptionCard (cap_text c)
                             (Fmt.percent_of_float 1 (cap_confidence c)))],
           Unmodelled)
      end.
Proof.
  intros Hc Hcs.
  destruct (read_captions d _ Hc) as (desc & w & l & Hd & Hw & Ht & Hl & Hg).
  rewrite Hcs in Ht, Hl. inversion Hl as [|cap c' l' cs' Hcap _]; subst.
  exists cap. split; [exact Hcap|].
  unfold image_description.
  rewrite Hd. cbn [mbind ui_bind emit eval app].
  rewrite Hw. cbn [mbind ui_bind emit eval app]. rewrite Ht.
  destruct (Hg Ht) as [H1 H2]. unfold first_caption.
  rewrite H1. cbn [mbind py_bind]. rewrite H2.
  cbn [mbind py_bind Py.getitem0 ui_bind emit eval app].
  rewrite (getitem_label Build_Caption "text" cap_text cap_confidence
             ltac:(reflexivity) ltac:(reflexivity) _ _ Hcap).
  rewrite (getitem_confidence Build_Caption "text" cap_text cap_confidence
             ltac:(reflexivity) ltac:(reflexivity) _ _ Hcap).
  cbn [mbind py_bind Py.str]. rewrite percent_float.
  destruct (build_paragraph (VDict d) cap); reflexivity.
Qed.

Lemma image_description_no_caption (d : list (string * value)) caps :
  parse_description d = Some caps -> seq_of caps = [] ->
  image_description (VDict d) =
    ([markdown Page SectionOpen; markdown Page (Heading 2 "Image Description");
      warning "No description detected"; markdown Page DivClose],
     Ok tt).
Proof.
  intros Hc Hcs.
  destruct (read_captions d _ Hc) as (desc & w & l & Hd & Hw & Ht & _).
  unfold image_description.
  rewrite Hd. cbn [mbind ui_bind emit eval app].
  rewrite Hw. cbn [mbind ui_bind emit eval app]. rewrite Ht, Hcs. reflexivity.
Qed.

(** ** Fields that are present but not lists *)

Lemma lookup_set_key (k k' : string) (x : value) (d : list (string * value)) :
  Py.lookup_item k' (set_key k x d) =
    if String.eqb k' k then Some x else Py.lookup_item k' d.
Proof.
  unfold set_key. cbn [Py.lookup_item]. rewrite lookup_without_key.
  now destruct (String.eqb k' k).
Qed.

Lemma parse_description_lookup (d d' : list (string * value)) :
  Py.lookup_item "description" d = Py.lookup_item "description" d' ->
  parse_description d = parse_description d'.
Proof. intros H. unfold parse_description. now rewrite H. Qed.

(** X7. A null "objects" is not an absent one.  When there is a caption, the
    comprehension of line 164 iterates over [None]: the caption card is
    drawn, then TypeError ends the run, with no paragraph, no object and no
    tag.  When there is no caption the summary is the one of a response with
    no object. *)
Theorem null_objects_is_not_absent (d : list (string * value)) (r : AnalysisResult) :
  parse_result (VDict d) = Some r ->
  match seq_of (captions r) with
  | c :: _ =>
      summarize (VDict (set_key "objects" VNone d)) =
        ([markdown Page SectionOpen; markdown Page (Heading 2 "Image Description");
          markdown Page (CaptionCard (cap_text c)
                           (Fmt.percent_of_float 1 (cap_confidence c)))],
         Raise TypeError)
  | [] =>
      summarize (VDict (set_key "objects" VNone d)) =
        summarize (VDict (set_empty "objects" d))
  end.
Proof.
  intros Hr. pose proof Hr as (d0 & [= <-] & Hc & Ho & Ht)%parse_result_inv.
  set (d1 := set_key "objects" VNone d).
  assert (Hc1 : parse_description d1 = Some (captions r)).
  { rewrite <- Hc. apply parse_description_lookup. unfold d1.
    now rewrite lookup_set_key. }
  destruct (seq_of (captions r)) as [|c rest] eqn:Hcs.
  - unfold summarize.
    rewrite (image_description_no_caption d1 _ Hc1 Hcs).
    rewrite (image_description_no_caption (set_empty "objects" d) (captions r)); [|
      rewrite <- Hc; apply parse_description_lookup; unfold set_empty;
      cbn [Py.lookup_item String.eqb Ascii.eqb Bool.eqb]; now rewrite lookup_without_key | exact Hcs].
    rewrite (detected_objects_lookup d1 [("objects", VNone)])
      by (unfold d1; now rewrite lookup_set_key).
    rewrite (detected_objects_lookup (set_empty "objects" d) [("objects", VList [])])
      by (unfold set_empty; reflexivity).
    rewrite (image_tags_lookup d1 (set_empty "objects" d)); [reflexivity|].
    unfold d1, set_empty. rewrite lookup_set_key. cbn [Py.lookup_item String.eqb Ascii.eqb Bool.eqb].
    now rewrite lookup_without_key.
  - destruct (image_description_caption d1 _ c rest Hc1 Hcs) as (cap & _ & Hd).
    unfold summarize. rewrite Hd.
    assert (Hb : build_paragraph (VDict d1) cap = Raise TypeError).
    { unfold build_paragraph, Py.get. unfold d1. rewrite lookup_set_key. reflexivity. }
    rewrite Hb. reflexivity.
Qed.

Lemma null_objects_is_not_absent_witness :
  summarize (VDict (set_key "objects" VNone
                      [("description",
                        VDict [("captions", VList [Sample.entry "text" "a street" 0.6])])])) =
    ([markdown Page SectionOpen; markdown Page (Heading 2 "Image Description");
      markdown Page (CaptionCard "a street" (Fmt.percent_of_float 1 0.6))],
     Raise TypeError).
Proof.
  exact (null_objects_is_not_absent
           [("description",
             VDict [("captions", VList [Sample.entry "text" "a street" 0.6])])]
           {| captions := Some [{| cap_text := "a street"; cap_confidence := 0.6 |}];
              objects := None; tags := None |}
           eq_refl).
Defined.

(** ** An entry without its label *)

Lemma comprehension_stops {A B} (f : A -> py B) (good : list A) (bad : A)
    (others : list A) (e : exn) :
  Forall (fun x => exists y, f x = Ok y) good -> f bad = Raise e ->
  comprehension f (good ++ bad :: others) = Raise e.
Proof.
  intros Hg Hb. induction Hg as [|x good [y Hx] _ IH]; cbn [app comprehension].
  - now rewrite Hb.
  - rewrite Hx, IH. reflexivity.
Qed.

Lemma parsed_object_has_label (v : value) :
  is_Some (parse_object v) -> exists y, Py.getitem v "object" = Ok y.
Proof.
  intros [o Ho]. eexists.
  exact (getitem_label Build_DetectedObject "object" obj_label obj_confidence
           ltac:(reflexivity) ltac:(reflexivity) _ _ Ho).
Qed.

(** X8. An object without the "object" key ends the description section
    wherever it stands in the list, the sixth place and later included: the
    labels of all the objects are read before the first five are kept, so
    the caption card is drawn and then KeyError is raised, with no
    paragraph. *)
Theorem unlabelled_object_ends_description (d : list (string * value)) caps
    (c : Caption) (rest : list Caption) (good others : list value)
    (bad : list (string * value)) :
  parse_description d = Some caps ->
  seq_of caps = c :: rest ->
  Py.lookup_item "objects" d = Some (VList (good ++ VDict bad :: others)) ->
  Forall (fun v => is_Some (parse_object v)) good ->
  Py.lookup_item "object" bad = None ->
  image_description (VDict d) =
    ([markdown Page SectionOpen; markdown Page (Heading 2 "Image Description");
      markdown Page (CaptionCard (cap_text c)
                       (Fmt.percent_of_float 1 (cap_confidence c)))],
     Raise KeyError) /\
  summarize (VDict d) = image_description (VDict d).
Proof.
  intros Hc Hcs Ho Hg Hb.
  destruct (image_description_caption d _ c rest Hc Hcs) as (cap & _ & Hd).
  assert (Hp : build_paragraph (VDict d) cap = Raise KeyError).
  { unfold build_paragraph, Py.get. rewrite Ho. cbn [default from_option id mbind py_bind Py.iter].
    rewrite (comprehension_stops _ good (VDict bad) others KeyError); [reflexivity| |].
    - eapply Forall_impl; [exact Hg|]. intros v. apply parsed_object_has_label.
    - unfold Py.getitem. now rewrite Hb. }
  rewrite Hp in Hd. split; [exact Hd|].
  unfold summarize. rewrite Hd. reflexivity.
Qed.

Lemma unlabelled_object_ends_description_witness :
  image_description
    (VDict [("description", VDict [("captions", VList [Sample.entry "text" "a street" 0.6])]);
            ("objects",
             VList (map (fun s => Sample.entry "object" s 0.5)
                        ["car"; "bus"; "bike"; "person"; "dog"; "tree"]
                    ++ VDict [("confidence", VFloat 0.5)] :: []))]) =
    ([markdown Page SectionOpen; markdown Page (Heading 2 "Image Description");
      markdown Page (CaptionCard "a street" (Fmt.percent_of_float 1 0.6))],
     Raise KeyError).
Proof.
  refine (proj1 (unlabelled_object_ends_description
                   [("description",
                     VDict [("captions", VList [Sample.entry "text" "a street" 0.6])]);
                    ("objects",
                     VList (map (fun s => Sample.entry "object" s 0.5)
                                ["car"; "bus"; "bike"; "person"; "dog"; "tree"]
                            ++ VDict [("confidence", VFloat 0.5)] :: []))]
                   (Some [{| cap_text := "a street"; cap_confidence := 0.6 |}])
                   {| cap_text := "a street"; cap_confidence := 0.6 |} []
                   (map (fun s => Sample.entry "object" s 0.5)
                        ["car"; "bus"; "bike"; "person"; "dog"; "tree"])
                   [] [("confidence", VFloat 0.5)]
                   eq_refl eq_refl eq_refl _ eq_refl)).
  repeat constructor; eexists; reflexivity.
Defined.

Lemma for_enumerate_stops (good : list value) (os : list DetectedObject)
    (bad : value) (others : list value) (i : nat) (e : exn) :
  Forall2 (fun v o => parse_object v = Some o) good os ->
  (forall j, draw_object_card j bad = ([], Raise e)) ->
  for_enumerate draw_object_card i (good ++ bad :: others) =
    (imap (fun j o =>
             markdown (Column ((i + j) mod 2))
               (ObjectCard (Str.title (obj_label o))
                  (Fmt.percent_of_float 1 (obj_confidence o))))
          os,
     Raise e).
Proof.
  intros H Hb. revert i. induction H as [|v o l os Hv _ IH]; intros i.
  - cbn [app for_enumerate]. rewrite Hb. reflexivity.
  - cbn [app for_enumerate]. rewrite (draw_object_card_spec i v o Hv), (IH (S i)).
    cbn [mbind ui_bind app]. rewrite imap_cons, Nat.add_0_r.
    do 2 f_equal. apply imap_ext. intros j x _. cbn.
    now rewrite Nat.add_succ_r.
Qed.

(** X9. In the objects section an object without the "object" key ends the
    loop where it stands: the cards of the objects before it are already
    drawn, in their columns, KeyError is raised, the section is left open
    and the tags are never reached. *)
Theorem unlabelled_object_leaves_earlier_cards (d : list (string * value))
    (good others : list value) (os : list DetectedObject)
    (bad : list (string * value)) :
  Py.lookup_item "objects" d = Some (VList (good ++ VDict bad :: others)) ->
  Forall2 (fun v o => parse_object v = Some o) good os ->
  Py.lookup_item "object" bad = None ->
  detected_objects (VDict d) =
    ([markdown Page SectionOpen; markdown Page (Heading 2 "Detected Objects");
      columns 2] ++ Spec.object_cards os,
     Raise KeyError).
Proof.
  intros Ho Hg Hb.
  unfold detected_objects, Py.get, Py.getitem. rewrite Ho.
  cbn [default from_option id mbind ui_bind emit eval app].
  assert (Ht : Py.truthy (VList (good ++ VDict bad :: others)) = true)
    by (destruct good; reflexivity).
  rewrite Ht. cbn [mbind py_bind ui_bind Py.iter emit eval app].
  rewrite (for_enumerate_stops good os (VDict bad) others 0 KeyError Hg).
  - reflexivity.
  - intros j. unfold draw_object_card, Py.getitem. now rewrite Hb.
Qed.

Lemma unlabelled_object_leaves_earlier_cards_witness :
  detected_objects
    (VDict [("objects",
             VList ([Sample.entry "object" "cat" 0.95]
                    ++ VDict [("confidence", VFloat 0.5)]
                    :: [Sample.entry "object" "chair" 0.80]))]) =
    ([markdown Page SectionOpen; markdown Page (Heading 2 "Detected Objects");
      columns 2] ++
     Spec.object_cards [{| obj_label := "cat"; obj_confidence := 0.95 |}],
     Raise KeyError).
Proof.
  refine (unlabelled_object_leaves_earlier_cards
            [("objects",
              VList ([Sample.entry "object" "cat" 0.95]
                     ++ VDict [("confidence", VFloat 0.5)]
                     :: [Sample.entry "object" "chair" 0.80]))]
            [Sample.entry "object" "cat" 0.95]
            [Sample.entry "object" "chair" 0.80]
            [{| obj_label := "cat"; obj_confidence := 0.95 |}]
            [("confidence", VFloat 0.5)] eq_refl _ eq_refl).
  repeat constructor.
Defined.

(** ** The page around the analysis *)

Lemma summarize_section_calls (v : value) :
  Forall (fun e => is_section_call e = true) (trace (summarize v)).
Proof.
  unfold summarize, image_description, detected_objects, image_tags, draw_object_card.
  walk_trace.
Qed.

Lemma posts_section_calls (t : list event) :
  Forall (fun e => is_section_call e = true) t -> posts t = [].
Proof.
  unfold posts. induction 1 as [|e t He _ IH]; [reflexivity|].
  rewrite omap_cons_eq. destruct e; try discriminate; exact IH.
Qed.

Lemma posts_app (t t' : list event) : posts (t ++ t') = posts t ++ posts t'.
Proof. apply omap_app. Qed.

Section Page.

Context {image : Type}.
Context (Image_open : bytes -> py image) (convert_RGB : image -> py image).
Context (save_JPEG : image -> py bytes) (st_image : image -> py unit).
Context (requests_post : request -> py response).

Local Abbreviation Normalize := (normalize image Image_open convert_RGB save_JPEG).
Local Abbreviation Analyze :=
  (analyze image Image_open convert_RGB save_JPEG requests_post).
Local Abbreviation Script :=
  (script image Image_open convert_RGB save_JPEG st_image requests_post).

(** X10. Without an endpoint or without a key (unset, or set to the empty
    string) the script draws its header and the credentials error and
    stops: no uploader, no preview, no request, whatever was uploaded or
    clicked. *)
Theorem missing_credentials_stop_the_page (i : inputs) :
  unset (AZURE_VISION_ENDPOINT i) || unset (AZURE_VISION_API_KEY i) = true ->
  Script i =
    ([set_page_config; markdown Page Style; markdown Page Header;
      error "Azure Computer Vision credentials missing in .env"],
     Raise StopException).
Proof.
  intros H. unfold script. rewrite H. reflexivity.
Qed.

(** X11. With credentials set, a run with no upload draws the uploader and
    the footer and ends normally; a run with an upload that opens and is
    previewed, but no click, draws the preview, the button and the footer
    and ends normally.  Neither sends a request nor draws a result. *)
Theorem page_before_the_click (i : inputs) :
  unset (AZURE_VISION_ENDPOINT i) || unset (AZURE_VISION_API_KEY i) = false ->
  (uploaded_file i = None ->
   Script i =
     ([set_page_config; markdown Page Style; markdown Page Header;
       markdown Page (Heading 2 "Upload Image"); file_uploader;
       markdown Page Footer],
      Ok tt)) /\
  (forall raw img,
     uploaded_file i = Some raw -> analyze_clicked i = false ->
     Image_open raw = Ok img -> st_image img = Ok tt ->
     Script i =
       ([set_page_config; markdown Page Style; markdown Page Header;
         markdown Page (Heading 2 "Upload Image"); file_uploader;
         markdown Page ImageBoxOpen; image_drawn; markdown Page DivClose;
         markdown Page LineBreak; button;
         markdown Page Footer],
        Ok tt)).
Proof.
  intros Hset. split.
  - intros Hu. unfold script. rewrite Hset, Hu. reflexivity.
  - intros raw img Hu Hc Ho Hi. unfold script. rewrite Hset, Hu, Hc. run_ui.
    rewrite Ho. run_ui. rewrite Hi. reflexivity.
Qed.

(** X12. When everything succeeds (the upload opens and normalises, the
    service answers 200 with a response of the documented shape) the run
    draws the preview, sends one request carrying the normalised bytes,
    draws the three sections of the summary, then the raw response
    unchanged in its expander, then the footer, and ends normally. *)
Theorem successful_analysis (i : inputs) (raw image_bytes : bytes) (img : image)
    (endpoint key : string) (resp : response) (result : value) (r : AnalysisResult) :
  AZURE_VISION_ENDPOINT i = Some endpoint ->
  AZURE_VISION_API_KEY i = Some key ->
  unset (Some endpoint) || unset (Some key) = false ->
  uploaded_file i = Some raw ->
  analyze_clicked i = true ->
  Image_open raw = Ok img ->
  st_image img = Ok tt ->
  Normalize raw = Ok image_bytes ->
  requests_post (analyze_request endpoint key image_bytes) = Ok resp ->
  status_code resp = 200%Z ->
  json resp = Ok result ->
  parse_result result = Some r ->
  Script i =
    ([set_page_config; markdown Page Style; markdown Page Header;
      markdown Page (Heading 2 "Upload Image"); file_uploader;
      markdown Page ImageBoxOpen; image_drawn; markdown Page DivClose;
      markdown Page LineBreak; button;
      spinner "Analyzing image...";
      post (analyze_request endpoint key image_bytes)] ++
     Spec.description_section r ++ Spec.objects_section r ++ Spec.tags_section r ++
     [expander "Raw API Response"; json_shown result; markdown Page Footer],
     Ok tt).
Proof.
  intros He Hk Hset Hu Hc Ho Hi Hn Hp Hs Hj Hr.
  unfold script. rewrite He, Hk, Hset, Hu, Hc. run_ui.
  rewrite Ho. run_ui. rewrite Hi. run_ui.
  change (default "" (Some endpoint)) with endpoint.
  change (default "" (Some key)) with key.
  unfold analyze. rewrite Hn. run_ui. rewrite Hp. run_ui. rewrite Hs.
  cbn [Z.eqb Pos.eqb negb]. run_ui. rewrite Hj. run_ui.
  rewrite (summarize_spec result r Hr). run_ui.
  rewrite <- !app_assoc. reflexivity.
Qed.

(** X13. When [requests.post] itself raises (a timeout, a refused
    connection) nothing catches the exception: it ends the run right after
    the request, and no [st.error] box, no summary and no footer is
    drawn. *)
Theorem network_failure_is_not_reported (raw image_bytes : bytes)
    (endpoint key : string) (e : exn) :
  Normalize raw = Ok image_bytes ->
  requests_post (analyze_request endpoint key image_bytes) = Raise e ->
  Analyze endpoint key raw =
    ([spinner "Analyzing image..."; post (analyze_request endpoint key image_bytes)],
     Raise e) /\
  (forall i img,
     AZURE_VISION_ENDPOINT i = Some endpoint ->
     AZURE_VISION_API_KEY i = Some key ->
     unset (Some endpoint) || unset (Some key) = false ->
     uploaded_file i = Some raw -> analyze_clicked i = true ->
     Image_open raw = Ok img -> st_image img = Ok tt ->
     outcome (Script i) = Raise e /\
     Forall (fun ev => is_error ev = false) (trace (Script i)) /\
     Forall (fun ev => is_result_output ev = false) (trace (Script i)) /\
     markdown Page Footer ∉ trace (Script i)).
Proof.
  intros Hn Hp.
  assert (Ha : Analyze endpoint key raw =
                 ([spinner "Analyzing image...";
                   post (analyze_request endpoint key image_bytes)], Raise e)).
  { unfold analyze. rewrite Hn. run_ui. rewrite Hp. reflexivity. }
  split; [exact Ha|].
  intros i img He Hk Hset Hu Hc Ho Hi.
  unfold script. rewrite He, Hk, Hset, Hu, Hc. run_ui.
  rewrite Ho. run_ui. rewrite Hi. run_ui.
  change (default "" (Some endpoint)) with endpoint.
  change (default "" (Some key)) with key.
  rewrite Ha. run_ui.
  split; [reflexivity|]. split; [repeat constructor|]. split; [repeat constructor|].
  rewrite !elem_of_cons, elem_of_nil. intros H.
  repeat (destruct H as [H|H]; [discriminate|]). exact H.
Qed.

(** X14. When the service answers 200 with a body that [response.json()]
    cannot parse, the exception of [json()] ends the run after the request:
    the body is not shown in an [st.error] box and no section is drawn. *)
Theorem unparsable_body_is_not_reported (raw image_bytes : bytes)
    (endpoint key : string) (resp : response) (e : exn) :
  Normalize raw = Ok image_bytes ->
  requests_post (analyze_request endpoint key image_bytes) = Ok resp ->
  status_code resp = 200%Z ->
  json resp = Raise e ->
  Analyze endpoint key raw =
    ([spinner "Analyzing image..."; post (analyze_request endpoint key image_bytes)],
     Raise e).
Proof.
  intros Hn Hp Hs Hj. unfold analyze. rewrite Hn. run_ui. rewrite Hp. run_ui.
  rewrite Hs. cbn [Z.eqb Pos.eqb negb]. run_ui. rewrite Hj. reflexivity.
Qed.

Lemma posts_analyze (endpoint key : string) (raw : bytes) :
  posts (trace (Analyze endpoint key raw)) =
    match Normalize raw with
    | Ok image_bytes => [analyze_request endpoint key image_bytes]
    | _ => []
    end.
Proof.
  unfold analyze.
  destruct (normalize image Image_open convert_RGB save_JPEG raw) as [b| |];
    run_ui; try reflexivity.
  destruct (requests_post _) as [resp| |]; run_ui; try reflexivity.
  destruct (negb (status_code resp =? 200)%Z); run_ui; [reflexivity|].
  destruct (json resp) as [result| |]; run_ui; try reflexivity.
  pose proof (posts_section_calls _ (summarize_section_calls result)) as Hs.
  unfold posts in *.
  destruct (summarize result) as [t [[]| |]]; cbn [trace fst] in Hs; run_ui;
    rewrite !omap_cons_eq; cbn [request_of]; rewrite ?omap_app, Hs; reflexivity.
Qed.

(** X15. A run of the script sends at most one request, and only after a
    click on an upload that was normalised: the request goes to the analyze
    URL of the configured endpoint, carries the configured key, and its body
    is the normaliser's output, never the bytes as uploaded. *)
Theorem only_the_normalised_image_is_sent (i : inputs) :
  posts (trace (Script i)) = [] \/
  exists raw endpoint key image_bytes,
    uploaded_file i = Some raw /\
    analyze_clicked i = true /\
    AZURE_VISION_ENDPOINT i = Some endpoint /\
    AZURE_VISION_API_KEY i = Some key /\
    Normalize raw = Ok image_bytes /\
    posts (trace (Script i)) = [analyze_request endpoint key image_bytes].
Proof.
  unfold script.
  destruct (unset (AZURE_VISION_ENDPOINT i) || unset (AZURE_VISION_API_KEY i)) eqn:Hset;
    run_ui; [left; reflexivity|].
  destruct (AZURE_VISION_ENDPOINT i) as [endpoint|] eqn:He; [|discriminate].
  destruct (AZURE_VISION_API_KEY i) as [key|] eqn:Hk;
    [|cbn in Hset; rewrite orb_true_r in Hset; discriminate].
  destruct (uploaded_file i) as [raw|] eqn:Hu; run_ui; [|left; reflexivity].
  destruct (Image_open raw) as [img| |]; run_ui; try (left; reflexivity).
  destruct (st_image img) as [[]| |]; run_ui; try (left; reflexivity).
  destruct (analyze_clicked i) eqn:Hc; run_ui; [|left; reflexivity].
  change (default "" (Some endpoint)) with endpoint.
  change (default "" (Some key)) with key.
  pose proof (posts_analyze endpoint key raw) as Hp.
  destruct (analyze image Image_open convert_RGB save_JPEG requests_post endpoint key raw)
    as [t o]. cbn [trace fst] in Hp.
  match goal with |- posts ?T = [] \/ _ => assert (Hall : posts T = posts t) end.
  { unfold posts. destruct o as [[]| |]; run_ui;
      rewrite !omap_cons_eq; cbn [request_of]; rewrite ?omap_app;
      cbn [omap list_omap request_of]; rewrite ?app_nil_r; reflexivity. }
  rewrite Hall, Hp.
  destruct (normalize image Image_open convert_RGB save_JPEG raw) as [b| |] eqn:Hn;
    [right | left; reflexivity | left; reflexivity].
  exists raw, endpoint, key, b. repeat split; first [reflexivity | assumption].
Qed.

End Page.

Lemma missing_credentials_stop_the_page_witness :
  script Toy.image Toy.Image_open Toy.convert_RGB Toy.save_JPEG Toy.st_image
    Service.answers
    {| AZURE_VISION_ENDPOINT := Some "https://vision.example/";
       AZURE_VISION_API_KEY := Some "";
       uploaded_file := Some Service.jpeg_magic;
       analyze_clicked := true |} =
    ([set_page_config; markdown Page Style; markdown Page Header;
      error "Azure Computer Vision credentials missing in .env"],
     Raise StopException).
Proof.
  exact (missing_credentials_stop_the_page Toy.Image_open Toy.convert_RGB Toy.save_JPEG
           Toy.st_image Service.answers
           {| AZURE_VISION_ENDPOINT := Some "https://vision.example/";
              AZURE_VISION_API_KEY := Some "";
              uploaded_file := Some Service.jpeg_magic;
              analyze_clicked := true |}
           eq_refl).
Defined.

Lemma page_before_the_click_witness :
  script Toy.image Toy.Image_open Toy.convert_RGB Toy.save_JPEG Toy.st_image
    Service.answers (Service.no_click Service.jpeg_magic) =
    ([set_page_config; markdown Page Style; markdown Page Header;
      markdown Page (Heading 2 "Upload Image"); file_uploader;
      markdown Page ImageBoxOpen; image_drawn; markdown Page DivClose;
      markdown Page LineBreak; button;
      markdown Page Footer],
     Ok tt).
Proof.
  exact (proj2 (page_before_the_click Toy.Image_open Toy.convert_RGB Toy.save_JPEG
                  Toy.st_image Service.answers (Service.no_click Service.jpeg_magic)
                  eq_refl)
           Service.jpeg_magic Service.jpeg_magic eq_refl eq_refl eq_refl eq_refl).
Defined.

Lemma successful_analysis_witness :
  outcome (script Toy.image Toy.Image_open Toy.convert_RGB Toy.save_JPEG Toy.st_image
             Service.answers (Toy.click Service.jpeg_magic)) = Ok tt /\
  posts (trace (script Toy.image Toy.Image_open Toy.convert_RGB Toy.save_JPEG
                  Toy.st_image Service.answers (Toy.click Service.jpeg_magic))) =
    [analyze_request "https://vision.example/" "k" Service.jpeg_magic].
Proof.
  rewrite (successful_analysis Toy.Image_open Toy.convert_RGB Toy.save_JPEG Toy.st_image
             Service.answers (Toy.click Service.jpeg_magic)
             Service.jpeg_magic Service.jpeg_magic Service.jpeg_magic
             "https://vision.example/" "k"
             {| status_code := 200; text := "{...}"; json := Ok Sample.cat_on_chair |}
             Sample.cat_on_chair (Sample.parsed Sample.cat_on_chair)
             eq_refl eq_refl eq_refl eq_refl eq_refl eq_refl eq_refl eq_refl eq_refl
             eq_refl eq_refl eq_refl).
  split; vm_compute; reflexivity.
Defined.

Lemma network_failure_is_not_reported_witness :
  analyze Toy.image Toy.Image_open Toy.convert_RGB Toy.save_JPEG Service.times_out
    "https://vision.example/" "k" Service.jpeg_magic =
    ([spinner "Analyzing image...";
      post (analyze_request "https://vision.example/" "k" Service.jpeg_magic)],
     Raise (LibraryError "ReadTimeout")).
Proof.
  exact (proj1 (network_failure_is_not_reported Toy.Image_open Toy.convert_RGB
                  Toy.save_JPEG Toy.st_image Service.times_out
                  Service.jpeg_magic Service.jpeg_magic "https://vision.example/" "k"
                  (LibraryError "ReadTimeout") eq_refl eq_refl)).
Defined.

Lemma unparsable_body_is_not_reported_witness :
  analyze Toy.image Toy.Image_open Toy.convert_RGB Toy.save_JPEG Service.answers_html
    "https://vision.example/" "k" Service.jpeg_magic =
    ([spinner "Analyzing image...";
      post (analyze_request "https://vision.example/" "k" Service.jpeg_magic)],
     Raise ValueError).
Proof.
  exact (unparsable_body_is_not_reported Toy.Image_open Toy.convert_RGB
           Toy.save_JPEG Service.answers_html
           Service.jpeg_magic Service.jpeg_magic "https://vision.example/" "k"
           {| status_code := 200; text := "<html>"; json := Raise ValueError |}
           ValueError eq_refl eq_refl eq_refl eq_refl).
Defined.

(** ** The captions after the first *)

Lemma image_description_reads_first_caption
    (d1 d2 dd1 dd2 : list (string * value)) (cap : value) (junk1 junk2 : list value) :
  Py.lookup_item "description" d1 = Some (VDict dd1) ->
  Py.lookup_item "description" d2 = Some (VDict dd2) ->
  Py.lookup_item "captions" dd1 = Some (VList (cap :: junk1)) ->
  Py.lookup_item "captions" dd2 = Some (VList (cap :: junk2)) ->
  Py.lookup_item "objects" d1 = Py.lookup_item "objects" d2 ->
  Py.lookup_item "tags" d1 = Py.lookup_item "tags" d2 ->
  image_description (VDict d1) = image_description (VDict d2).
Proof.
  intros Hd1 Hd2 Hc1 Hc2 Ho Ht.
  unfold image_description, first_caption, build_paragraph, Py.get, Py.getitem.
  rewrite Hd1, Hd2, Ho, Ht.
  cbn [default from_option id mbind ui_bind py_bind emit eval app].
  rewrite Hc1, Hc2.
  cbn [default from_option id mbind ui_bind py_bind emit eval app Py.truthy Py.getitem0].
  reflexivity.
Qed.

(** X16. The captions after the first are never read: replacing them by
    anything, well formed or not, changes nothing of the summary.  Only
    caption 0 has to be a caption. *)
Theorem later_captions_are_never_read (d dd : list (string * value)) (cap : value)
    (junk junk' : list value) :
  Py.lookup_item "description" d = Some (VDict dd) ->
  Py.lookup_item "captions" dd = Some (VList (cap :: junk)) ->
  summarize
    (VDict (set_key "description"
              (VDict (set_key "captions" (VList (cap :: junk')) dd)) d)) =
  summarize (VDict d).
Proof.
  intros Hd Hc.
  set (dd' := set_key "captions" (VList (cap :: junk')) dd).
  set (d' := set_key "description" (VDict dd') d).
  assert (Ho : Py.lookup_item "objects" d' = Py.lookup_item "objects" d)
    by (unfold d'; now rewrite lookup_set_key).
  assert (Ht : Py.lookup_item "tags" d' = Py.lookup_item "tags" d)
    by (unfold d'; now rewrite lookup_set_key).
  unfold summarize.
  rewrite (image_description_reads_first_caption d' d dd' dd cap junk' junk);
    try assumption.
  - now rewrite (detected_objects_lookup d' d Ho), (image_tags_lookup d' d Ht).
  - unfold d'. now rewrite lookup_set_key.
  - unfold dd'. now rewrite lookup_set_key.
Qed.

Lemma later_captions_are_never_read_witness :
  summarize
    (VDict (set_key "description"
              (VDict (set_key "captions"
                        (VList [Sample.entry "text" "a cat sitting on a chair" 0.91;
                                VNone; VInt 7])
                        [("captions",
                          VList [Sample.entry "text" "a cat sitting on a chair" 0.91;
                                 Sample.entry "text" "a dog on a sofa" 0.99])]))
              [("description",
                VDict [("captions",
                        VList [Sample.entry "text" "a cat sitting on a chair" 0.91;
                               Sample.entry "text" "a dog on a sofa" 0.99])]);
               ("objects", VList [Sample.entry "object" "cat" 0.95;
                                  Sample.entry "object" "chair" 0.80]);
               ("tags", VList [Sample.entry "name" "animal" 0.99;
                               Sample.entry "name" "furniture" 0.77])])) =
  summarize Sample.two_captions.
Proof.
  exact (later_captions_are_never_read
           [("description",
             VDict [("captions",
                     VList [Sample.entry "text" "a cat sitting on a chair" 0.91;
                            Sample.entry "text" "a dog on a sofa" 0.99])]);
            ("objects", VList [Sample.entry "object" "cat" 0.95;
                               Sample.entry "object" "chair" 0.80]);
            ("tags", VList [Sample.entry "name" "animal" 0.99;
                            Sample.entry "name" "furniture" 0.77])]
           [("captions",
             VList [Sample.entry "text" "a cat sitting on a chair" 0.91;
                    Sample.entry "text" "a dog on a sofa" 0.99])]
           (Sample.entry "text" "a cat sitting on a chair" 0.91)
           [Sample.entry "text" "a dog on a sofa" 0.99]
           [VNone; VInt 7] eq_refl eq_refl).
Defined.

(** * Statements on ASCII text *)

(** ** Title case, in plain words *)

Lemma upper_is_capital (c : ascii) : Str.upper c = Plain.capital c.
Proof. destruct c as [[] [] [] [] [] [] [] []]; reflexivity. Qed.

Lemma lower_is_small (c : ascii) : Str.lower c = Plain.small c.
Proof. destruct c as [[] [] [] [] [] [] [] []]; reflexivity. Qed.

Lemma iscased_is_letter (c : ascii) : Str.iscased c = Plain.letter c.
Proof. destruct c as [[] [] [] [] [] [] [] []]; reflexivity. Qed.

Lemma title_from_is_title_case (b : bool) (s : string) :
  Str.title_from b s = Plain.title_case b s.
Proof.
  revert b. induction s as [|c s IH]; intros b; [reflexivity|].
  cbn [Str.title_from Plain.title_case].
  now rewrite IH, upper_is_capital, lower_is_small, iscased_is_letter.
Qed.

Lemma small_small (c : ascii) : Plain.small (Plain.small c) = Plain.small c.
Proof. destruct c as [[] [] [] [] [] [] [] []]; reflexivity. Qed.

Lemma small_capital (c : ascii) : Plain.small (Plain.capital c) = Plain.small c.
Proof. destruct c as [[] [] [] [] [] [] [] []]; reflexivity. Qed.

Lemma title_case_all_small (b : bool) (s : string) :
  Plain.all_small (Plain.title_case b s) = Plain.all_small s.
Proof.
  revert b. induction s as [|c s IH]; intros b; [reflexivity|].
  cbn [Plain.title_case Plain.all_small]. rewrite IH.
  destruct b; now rewrite ?small_small, ?small_capital.
Qed.

Lemma isascii_upper (c : ascii) : isascii_char (Str.upper c) = isascii_char c.
Proof. destruct c as [[] [] [] [] [] [] [] []]; reflexivity. Qed.

Lemma isascii_lower (c : ascii) : isascii_char (Str.lower c) = isascii_char c.
Proof. destruct c as [[] [] [] [] [] [] [] []]; reflexivity. Qed.

Lemma isascii_title_from (b : bool) (s : string) :
  isascii (Str.title_from b s) = isascii s.
Proof.
  revert b. induction s as [|c s IH]; intros b; [reflexivity|].
  cbn [Str.title_from isascii]. rewrite IH.
  destruct b; now rewrite ?isascii_upper, ?isascii_lower.
Qed.

(** ** ASCII text stays ASCII *)

Lemma isascii_app (a b : string) : isascii (a +:+ b) = isascii a && isascii b.
Proof.
  induction a as [|x a IH]; [reflexivity|].
  rewrite append_cons. cbn [isascii]. rewrite IH. now rewrite andb_assoc.
Qed.

Lemma isascii_split (s : string) :
  isascii s = true -> Forall (fun w => isascii w = true) (Str.split s).
Proof.
  induction s as [|c s IH]; [constructor|].
  cbn [isascii]. intros [Hc Hs]%andb_prop. specialize (IH Hs).
  cbn [Str.split]. destruct (Str.isspace c); [exact IH|].
  assert (H1 : isascii (String c "") = true) by (cbn; now rewrite Hc).
  destruct s as [|c' s']; [repeat constructor; exact H1|].
  destruct (Str.isspace c'); [constructor; [exact H1 | exact IH]|].
  destruct (Str.split (String c' s')) as [|w ws]; [repeat constructor; exact H1|].
  inversion IH as [|? ? Hw Hws]; subst.
  constructor; [|exact Hws]. cbn [isascii]. now rewrite Hc, Hw.
Qed.

Lemma isascii_join (sep : string) (ws : list string) :
  isascii sep = true -> Forall (fun w => isascii w = true) ws ->
  isascii (Str.join sep ws) = true.
Proof.
  intros Hsep. induction 1 as [|w ws Hw Hws IH]; [reflexivity|].
  destruct ws as [|w' ws']; [exact Hw|].
  change (Str.join sep (w :: w' :: ws')) with (w +:+ sep +:+ Str.join sep (w' :: ws')).
  now rewrite !isascii_app, Hw, Hsep, IH.
Qed.

Lemma isascii_hard_cap (p : string) : isascii p = true -> isascii (hard_cap p) = true.
Proof.
  intros Hp. unfold hard_cap. destruct (100 <? length (Str.split p)); [|exact Hp].
  rewrite isascii_app, isascii_join; [reflexivity | reflexivity |].
  apply Forall_take. now apply isascii_split.
Qed.

(** ** A percentage, in plain words *)














(** ** The claims and properties that depend on a character class *)



Lemma rstrip_slashes_only (s : string) :
  exists k, s = Str.rstrip_chars "/" s +:+ slashes k.
Proof.
  unfold Str.rstrip_chars. induction s as [|a s [k IH]]; [exists 0; reflexivity|].
  cbn [Str.rstrip_by].
  destruct (Str.rstrip_by _ s) as [|b r] eqn:Hr.
  - cbn [list_ascii_of_string existsb]. rewrite orb_false_r.
    rewrite append_nil in IH.
    destruct (Ascii.eqb_spec a "/") as [->|_].
    + exists (S k). rewrite append_nil. cbn [slashes]. now f_equal.
    + exists k. rewrite append_cons, append_nil. now f_equal.
  - exists k. rewrite append_cons. now f_equal.
Qed.

(** X1. The URL posted to is the endpoint without its trailing slashes
    followed by "/vision/v3.2/analyze": the endpoint is that base followed
    by slashes only, the base does not end with a slash, and any number of
    slashes added at the end of the configured endpoint gives the same
    URL. *)
Theorem request_url_ignores_trailing_slashes (endpoint api_key : string)
    (image_bytes : bytes) (n : nat) :
  url (analyze_request (endpoint +:+ slashes n) api_key image_bytes) =
    url (analyze_request endpoint api_key image_bytes) /\
  exists base k,
    endpoint = base +:+ slashes k /\
    Str.endswith base "/" = false /\
    url (analyze_request endpoint api_key image_bytes) = base +:+ "/vision/v3.2/analyze".
Proof.
  split.
  - unfold analyze_request. cbn [url]. f_equal. unfold Str.rstrip_chars.
    induction n as [|n IH]; [now rewrite append_empty_r|].
    rewrite slashes_snoc, <- append_assoc_str, rstrip_by_drop_last; [exact IH|reflexivity].
  - destruct (rstrip_slashes_only endpoint) as [k Hk].
    exists (Str.rstrip_chars "/" endpoint), k.
    split; [exact Hk|]. split; [now apply rstrip_by_no_such_end | reflexivity].
Qed.

(** X2. A paragraph the summarizer draws from an ASCII text has at most 100
    words and is ASCII; with no caption no paragraph is drawn.  On ASCII
    text the cap leaves min(100, n) words of a text of n words, keeps the
    text ASCII, and capping twice is capping once. *)
Theorem paragraph_never_over_100_words :
  (forall (v cap : value) (r : AnalysisResult) (built : string),
     parse_result v = Some r ->
     first_caption v = Ok cap ->
     build_paragraph v cap = Ok built ->
     isascii built = true ->
     exists shown,
       paragraphs (trace (summarize v)) = [shown] /\
       isascii shown = true /\
       length (Str.split shown) <= 100) /\
  (forall (v : value) (r : AnalysisResult),
     parse_result v = Some r -> seq_of (captions r) = [] ->
     paragraphs (trace (summarize v)) = []) /\
  (forall p,
     isascii p = true ->
     isascii (hard_cap p) = true /\
     length (Str.split (hard_cap p)) = Nat.min 100 (length (Str.split p)) /\
     hard_cap (hard_cap p) = hard_cap p).
Proof.
  split; [|split].
  - intros v cap r built Hv Hcap Hb Hascii.
    destruct (first_caption_inv v cap r Hv Hcap) as (c & rest & Hcs & Hc).
    rewrite (build_paragraph_spec v cap r c Hv Hc) in Hb. injection Hb as Hb.
    exists (hard_cap built). rewrite (summarize_spec v r Hv). cbn [trace fst].
    rewrite paragraphs_summary, Hcs, Hb.
    split; [reflexivity|]. split; [now apply isascii_hard_cap|].
    rewrite split_hard_cap_length. lia.
  - intros v r Hv Hcs. rewrite (summarize_spec v r Hv). cbn [trace fst].
    now rewrite paragraphs_summary, Hcs.
  - intros p Hp. split; [now apply isascii_hard_cap|].
    split; [apply split_hard_cap_length|].
    apply hard_cap_short. rewrite split_hard_cap_length. lia.
Qed.

Lemma paragraph_never_over_100_words_witness :
  exists shown,
    paragraphs (trace (summarize Sample.long_caption)) = [shown] /\
    isascii shown = true /\
    length (Str.split shown) <= 100.
Proof.
  refine (proj1 paragraph_never_over_100_words Sample.long_caption
            (Sample.entry "text" (Str.join " " (replicate 120 "very")) 0.5)
            (Sample.parsed Sample.long_caption)
            (Spec.narrative (Str.join " " (replicate 120 "very")) ["cat"] [])
            _ _ _ _); vm_compute; reflexivity.
Defined.





(** X3. The label on the card of an object with an ASCII label is that
    label with only the case of its letters changed: the same length, the
    same text once every letter of both is made small, still ASCII, and a
    label already in title case is drawn as it is. *)
Theorem card_label_changes_case_only (v : value) (r : AnalysisResult) :
  parse_result v = Some r ->
  Forall (fun o => isascii (obj_label o) = true) (seq_of (objects r)) ->
  Forall2 (fun card o =>
             String.length (fst card) = String.length (obj_label o) /\
             Plain.all_small (fst card) = Plain.all_small (obj_label o) /\
             isascii (fst card) = true /\
             Str.title (fst card) = fst card)
          (object_listing (trace (summarize v))) (seq_of (objects r)).
Proof.
  intros Hv Hascii. rewrite (summarize_spec v r Hv). cbn [trace fst].
  rewrite object_listing_summary. unfold Spec.object_view.
  induction Hascii as [|o os Ho _ IH]; [constructor|].
  cbn [map]. constructor; [|exact IH]. cbn [fst]. unfold Str.title.
  split; [apply title_from_length|].
  split; [rewrite title_from_is_title_case; apply title_case_all_small|].
  split; [now rewrite isascii_title_from|].
  apply title_from_twice.
Qed.

Lemma card_label_changes_case_only_witness :
  Forall2 (fun card o =>
             String.length (fst card) = String.length (obj_label o) /\
             Plain.all_small (fst card) = Plain.all_small (obj_label o) /\
             isascii (fst card) = true /\
             Str.title (fst card) = fst card)
          (object_listing (trace (summarize Sample.cat_on_chair)))
          [{| obj_label := "cat"; obj_confidence := 0.95 |};
           {| obj_label := "chair"; obj_confidence := 0.80 |}].
Proof.
  refine (card_label_changes_case_only Sample.cat_on_chair
            (Sample.parsed Sample.cat_on_chair) eq_refl _).
  repeat constructor.
Defined.

(** X6. On any value, well formed or not, whose run the embedding follows
    to its end or to the exception that ends it (no float, list or dict is
    interpolated as text), the summarizer only calls [st.markdown],
    [st.warning] and [st.columns]: it never draws an error box and never
    sends a request. *)
Theorem summarize_only_draws_sections (v : value) :
  outcome (summarize v) <> Unmodelled ->
  Forall (fun e => is_section_call e = true) (trace (summarize v)) /\
  Forall (fun e => is_error e = false) (trace (summarize v)) /\
  posts (trace (summarize v)) = [].
Proof.
  intros _. pose proof (summarize_section_calls v) as H.
  split; [exact H|]. split.
  - eapply Forall_impl; [exact H|]. intros [] He; try discriminate; reflexivity.
  - now apply posts_section_calls.
Qed.

Lemma summarize_only_draws_sections_witness :
  outcome (summarize (VDict [("description", VNone)])) = Raise AttributeError /\
  Forall (fun e => is_section_call e = true)
         (trace (summarize (VDict [("description", VNone)]))).
Proof.
  split; [reflexivity|].
  refine (proj1 (summarize_only_draws_sections (VDict [("description", VNone)]) _)).
  vm_compute. discriminate.
Defined.
